(** * Matrix multiplication utility (main.py): validation, product, CLI

    A shallow embedding of [src/main.py].  Python values that can reach the
    validator are an inductive type [pyobj]; exceptions are an explicit
    error type threaded through a small exception monad; Python's unbounded
    [int] is [Z]; Python's [float] (IEEE 754 binary64) is the Standard
    Library's [spec_float] at precision 53 and maximal exponent 1024;
    lists indexed in place are stdpp lists with lookup and insert, an index
    out of range raising [IndexError] as in Python. *)

From Stdlib Require Import ZArith String Ascii DecimalString SpecFloat.
From stdpp Require Import base numbers list strings gmap.

Set Warnings "-register-all".

Local Open Scope string_scope.
Local Open Scope Z_scope.
Local Open Scope nat_scope.
Local Open Scope list_scope.

(** ** Values *)

(** IEEE 754 binary64. *)
Definition prec : Z := 53.
Definition emax : Z := 1024.

(** Values a caller (or [json.loads]) can hand to the validator.  [PTuple]
    also stands for the other sequence classes that are not text. *)
Inductive pyobj : Type :=
| PNone
| PBool (b : bool)
| PInt (z : Z)
| PFloat (f : spec_float)
| PStr (s : string)
| PBytes (s : string)
| PList (items : list pyobj)
| PTuple (items : list pyobj)
| PDict (items : list (string * pyobj)).

(** [Number = Union[int, float]] *)
Inductive Number : Type :=
| NInt (z : Z)
| NFloat (f : spec_float).

Definition obj_of_number (x : Number) : pyobj :=
  match x with
  | NInt z => PInt z
  | NFloat f => PFloat f
  end.

(** A validated matrix, [List[List[Number]]], seen again as a raw value. *)
Definition obj_of_matrix (m : list (list Number)) : pyobj :=
  PList (map (fun r => PList (map obj_of_number r)) m).

(** ** Exceptions *)

Inductive pyexc : Type :=
| TypeError (msg : string)
| ValueError (msg : string)
| IndexError
| OverflowError
| RecursionError
| SystemExit (msg : string).

Inductive result (A : Type) : Type :=
| Return (a : A)
| Raise (e : pyexc).
Arguments Return {A} a.
Arguments Raise {A} e.

Definition bind {A B} (c : result A) (k : A -> result B) : result B :=
  match c with
  | Return a => k a
  | Raise e => Raise e
  end.

Notation "'do' x <- c ;; k" := (bind c (fun x => k))
  (at level 10, x name, c at level 99, k at level 200,
   format "'[v' 'do'  x  <-  c  ;;  '/' k ']'").

Definition message (e : pyexc) : string :=
  match e with
  | TypeError msg | ValueError msg | SystemExit msg => msg
  | IndexError => "list index out of range"
  | OverflowError => "int too large to convert to float"
  | RecursionError => "maximum recursion depth exceeded"
  end.

(** A list comprehension whose body can raise. *)
Fixpoint mapM {A B} (f : A -> result B) (l : list A) : result (list B) :=
  match l with
  | [] => Return []
  | x :: l' => do y <- f x ;; do ys <- mapM f l' ;; Return (y :: ys)
  end.

(** A [for] loop over [l] threading the loop's state. *)
Fixpoint foldM {A S} (f : S -> A -> result S) (l : list A) (s : S) : result S :=
  match l with
  | [] => Return s
  | x :: l' => do s' <- f s x ;; foldM f l' s'
  end.

(** [range(n)] *)
Definition range (n : nat) : list nat := seq 0 n.

(** [l[i]] for a list and a non-negative index. *)
Definition getitem {A} (l : list A) (i : nat) : result A :=
  match l !! i with
  | Some x => Return x
  | None => Raise IndexError
  end.

(** ** Validator *)

(** [isinstance(o, Sequence)]: list, tuple, str and bytes are registered
    sequences; numbers, [None] and dicts are not. *)
Definition isinstance_Sequence (o : pyobj) : bool :=
  match o with
  | PList _ | PTuple _ | PStr _ | PBytes _ => true
  | _ => false
  end.

(** [isinstance(o, (bytes, str))] *)
Definition isinstance_bytes_str (o : pyobj) : bool :=
  match o with
  | PStr _ | PBytes _ => true
  | _ => false
  end.

(** [isinstance(o, (int, float))]: [bool] is a subclass of [int]. *)
Definition isinstance_int_float (o : pyobj) : bool :=
  match o with
  | PInt _ | PBool _ | PFloat _ => true
  | _ => false
  end.

Definition isinstance_bool (o : pyobj) : bool :=
  match o with
  | PBool _ => true
  | _ => false
  end.

(** The items a [for] loop visits in a list or tuple (the only containers
    that pass the sequence test). *)
Definition iter_items (o : pyobj) : list pyobj :=
  match o with
  | PList l | PTuple l => l
  | _ => []
  end.

Definition _ensure_number (value : pyobj) (name : string) : result Number :=
  if isinstance_int_float value && negb (isinstance_bool value) then
    match value with
    | PInt z => Return (NInt z)
    | PFloat f => Return (NFloat f)
    | _ => Raise (TypeError (name +:+ " must contain only numbers (int or float)"))
    end
  else Raise (TypeError (name +:+ " must contain only numbers (int or float)")).

(** One turn of the loop over the rows: check the row, convert its
    elements, append. *)
Definition validate_row (name : string) (rows : list (list Number)) (row : pyobj)
  : result (list (list Number)) :=
  if negb (isinstance_Sequence row) || isinstance_bytes_str row then
    Raise (TypeError (name +:+ " must be a sequence of sequences of numbers"))
  else
    do r <- mapM (fun x => _ensure_number x name) (iter_items row) ;;
    Return (rows ++ [r]).

Definition _validate_matrix (matrix : pyobj) (name : string)
  : result (list (list Number)) :=
  if negb (isinstance_Sequence matrix) || isinstance_bytes_str matrix then
    Raise (TypeError (name +:+ " must be a sequence of sequences of numbers"))
  else
    do rows <- foldM (validate_row name) (iter_items matrix) [] ;;
    if decide (length rows = 0) then
      Raise (ValueError (name +:+ " must have at least one row"))
    else
      let row_lengths : gset nat := list_to_set (map length rows) in
      if decide (0 ∈ row_lengths) then
        Raise (ValueError (name +:+ " rows must be non-empty"))
      else if decide (size row_lengths ≠ 1) then
        Raise (ValueError (name +:+ " must be rectangular (all rows same length)"))
      else Return rows.

(** ** Arithmetic on numbers *)

(** [float(z)]: correctly rounded to nearest-even, [OverflowError] when
    the rounded magnitude exceeds the largest finite binary64. *)
Definition float_of_int (z : Z) : result spec_float :=
  match binary_normalize prec emax z 0 false with
  | S754_infinity _ => Raise OverflowError
  | f => Return f
  end.

(** [x * y]: exact on two ints, otherwise the int operand is converted and
    the product is a binary64 product. *)
Definition py_mul (x y : Number) : result Number :=
  match x, y with
  | NInt a, NInt b => Return (NInt (a * b))
  | NInt a, NFloat g => do f <- float_of_int a ;; Return (NFloat (SFmul prec emax f g))
  | NFloat f, NInt b => do g <- float_of_int b ;; Return (NFloat (SFmul prec emax f g))
  | NFloat f, NFloat g => Return (NFloat (SFmul prec emax f g))
  end.

(** [x + y] *)
Definition py_add (x y : Number) : result Number :=
  match x, y with
  | NInt a, NInt b => Return (NInt (a + b))
  | NInt a, NFloat g => do f <- float_of_int a ;; Return (NFloat (SFadd prec emax f g))
  | NFloat f, NInt b => do g <- float_of_int b ;; Return (NFloat (SFadd prec emax f g))
  | NFloat f, NFloat g => Return (NFloat (SFadd prec emax f g))
  end.

(** [x == 0]: true for the int 0 and for both float zeros, false for NaN. *)
Definition py_eq_zero (x : Number) : bool :=
  match x with
  | NInt a => (a =? 0)%Z
  | NFloat f => SFeqb f (S754_zero false)
  end.

(** [str(n)] for a length. *)
Definition str_of_nat (n : nat) : string := NilZero.string_of_uint (Nat.to_uint n).

(** ** Multiplier *)

(** [row_i[j] += aik * b_k[j]] *)
Definition loop_j (aik : Number) (b_k : list Number) (row_i : list Number) (j : nat)
  : result (list Number) :=
  do old <- getitem row_i j ;;
  do bkj <- getitem b_k j ;;
  do p <- py_mul aik bkj ;;
  do s <- py_add old p ;;
  Return (<[j := s]> row_i).

(** Lines 87-90: [row_i] is the very list stored at [result[i]], so the
    updates of [row_i] are updates of [result] at [i]. *)
Definition accumulate (b : list (list Number)) (b_cols : nat) (i k : nat) (aik : Number)
    (res : list (list Number)) : result (list (list Number)) :=
  do row_i <- getitem res i ;;
  do b_k <- getitem b k ;;
  do row_i' <- foldM (loop_j aik b_k) (range b_cols) row_i ;;
  Return (<[i := row_i']> res).

(** The body of [for k in range(a_cols)]. *)
Definition loop_k (a b : list (list Number)) (b_cols : nat) (i : nat)
    (res : list (list Number)) (k : nat) : result (list (list Number)) :=
  do a_i <- getitem a i ;;
  do aik <- getitem a_i k ;;
  if py_eq_zero aik then Return res
  else accumulate b b_cols i k aik res.

(** The body of [for i in range(a_rows)]. *)
Definition loop_i (a b : list (list Number)) (a_cols b_cols : nat)
    (res : list (list Number)) (i : nat) : result (list (list Number)) :=
  foldM (loop_k a b b_cols i) (range a_cols) res.

Definition shape_message (a_rows a_cols b_rows b_cols : nat) : string :=
  "Incompatible shapes for multiplication: left is " +:+ str_of_nat a_rows +:+ "x"
    +:+ str_of_nat a_cols +:+ ", right is " +:+ str_of_nat b_rows +:+ "x" +:+ str_of_nat b_cols.

(** [multiply_matrices] from line 64 on, on the two validated copies. *)
Definition multiply_validated (a b : list (list Number)) : result (list (list Number)) :=
  let a_rows := length a in
  do a0 <- getitem a 0 ;;
  let a_cols := length a0 in
  let b_rows := length b in
  do b0 <- getitem b 0 ;;
  let b_cols := length b0 in
  if decide (a_cols ≠ b_rows) then
    Raise (ValueError (shape_message a_rows a_cols b_rows b_cols))
  else
    let res := replicate a_rows (replicate b_cols (NInt 0)) in
    foldM (loop_i a b a_cols b_cols) (range a_rows) res.

Definition multiply_matrices (left right : pyobj) : result (list (list Number)) :=
  do a <- _validate_matrix left "left" ;;
  do b <- _validate_matrix right "right" ;;
  multiply_validated a b.

(** *** The reference loop without the zero test *)

(** The unconditional triple loop the specification compares with:
    [result[i][j] += left[i][k] * right[k][j]] for every [i], [k], [j]. *)
Definition naive_loop_k (a b : list (list Number)) (b_cols : nat) (i : nat)
    (res : list (list Number)) (k : nat) : result (list (list Number)) :=
  do a_i <- getitem a i ;;
  do aik <- getitem a_i k ;;
  accumulate b b_cols i k aik res.

Definition naive_loop_i (a b : list (list Number)) (a_cols b_cols : nat)
    (res : list (list Number)) (i : nat) : result (list (list Number)) :=
  foldM (naive_loop_k a b b_cols i) (range a_cols) res.

Definition naive_multiply_validated (a b : list (list Number)) : result (list (list Number)) :=
  let a_rows := length a in
  do a0 <- getitem a 0 ;;
  let a_cols := length a0 in
  let b_rows := length b in
  do b0 <- getitem b 0 ;;
  let b_cols := length b0 in
  if decide (a_cols ≠ b_rows) then
    Raise (ValueError (shape_message a_rows a_cols b_rows b_cols))
  else
    let res := replicate a_rows (replicate b_cols (NInt 0)) in
    foldM (naive_loop_i a b a_cols b_cols) (range a_rows) res.

Definition naive_multiply (left right : pyobj) : result (list (list Number)) :=
  do a <- _validate_matrix left "left" ;;
  do b <- _validate_matrix right "right" ;;
  naive_multiply_validated a b.

Definition int_matrix (m : list (list Z)) : pyobj :=
  PList (map (fun r => PList (map PInt r)) m).

(** ** Command line *)

(** *** [f"{val:g}"]: general format with six significant digits *)

Module Format.
Local Open Scope Z_scope.

Fixpoint digits10_aux (fuel : nat) (n : Z) : Z :=
  match fuel with
  | O => 0
  | S fuel' => if n <? 10 then 1 else 1 + digits10_aux fuel' (n / 10)
  end.

(** Number of decimal digits of [n > 0]. *)
Definition digits10 (n : Z) : Z := digits10_aux (S (Z.to_nat (Z.log2 n))) n.

(** [floor (log10 (n / d))] for [n, d > 0]. *)
Definition floor_log10 (n d : Z) : Z :=
  if d <=? n then digits10 (n / d) - 1
  else - digits10 ((d + n - 1) / n - 1).

(** [a / b] rounded to the nearest integer, ties to even. *)
Definition round_half_even (a b : Z) : Z :=
  let q := a / b in
  let r := a mod b in
  match 2 * r ?= b with
  | Lt => q
  | Gt => q + 1
  | Eq => if Z.even q then q else q + 1
  end.

(** The six significant digits [q] and the decimal exponent [x] of [n / d]:
    [n / d] is [q * 10 ^ (x - 5)] after rounding. *)
Definition sig_digits (n d : Z) : Z * Z :=
  let x := floor_log10 n d in
  let sh := 5 - x in
  let q := if 0 <=? sh then round_half_even (n * 10 ^ sh) d
           else round_half_even n (d * 10 ^ (- sh)) in
  if q =? 10 ^ 6 then (10 ^ 5, x + 1) else (q, x).

Definition digit_chars (q : Z) : list ascii :=
  list_ascii_of_string (NilZero.string_of_uint (N.to_uint (Z.to_N q))).

Fixpoint drop_zeros (l : list ascii) : list ascii :=
  match l with
  | c :: l' => if Ascii.eqb c "0" then drop_zeros l' else l
  | [] => []
  end.

(** Trailing zeros removed. *)
Definition strip_zeros (l : list ascii) : list ascii := rev (drop_zeros (rev l)).

Definition with_point (int_part frac : list ascii) : list ascii :=
  match strip_zeros frac with
  | [] => int_part
  | frac' => int_part ++ "."%char :: frac'
  end.

Definition exponent_chars (x : Z) : list ascii :=
  let ds := digit_chars (Z.abs x) in
  (if x <? 0 then "-"%char else "+"%char)
    :: (if (length ds <? 2)%nat then "0"%char :: ds else ds).

(** The digits of the positive rational [n / d] in [%g] style. *)
Definition format_pos (n d : Z) : list ascii :=
  let '(q, x) := sig_digits n d in
  let ds := digit_chars q in
  if (-4 <=? x) && (x <? 6) then
    if 0 <=? x then with_point (take (Z.to_nat (x + 1)) ds) (drop (Z.to_nat (x + 1)) ds)
    else with_point ["0"%char] (replicate (Z.to_nat (- x - 1)) "0"%char ++ ds)
  else
    with_point (take 1 ds) (drop 1 ds) ++ "e"%char :: exponent_chars x.

Definition sign_chars (s : bool) : list ascii := if s then ["-"%char] else [].

Definition format_float (f : spec_float) : string :=
  string_of_list_ascii
    match f with
    | S754_nan => list_ascii_of_string "nan"
    | S754_infinity s => sign_chars s ++ list_ascii_of_string "inf"
    | S754_zero s => sign_chars s ++ ["0"%char]
    | S754_finite s m e =>
        sign_chars s ++ format_pos (Z.pos m * 2 ^ Z.max e 0) (2 ^ Z.max (- e) 0)
    end.

End Format.

(** [format(val, "g")]: an int is converted to float first. *)
Definition format_g (val : Number) : result string :=
  match val with
  | NInt z => do f <- float_of_int z ;; Return (Format.format_float f)
  | NFloat f => Return (Format.format_float f)
  end.

Definition newline : string := String (ascii_of_nat 10) EmptyString.

(** [" ".join(parts)] *)
Fixpoint join_spaces (parts : list string) : string :=
  match parts with
  | [] => ""
  | [s] => s
  | s :: rest => s +:+ " " +:+ join_spaces rest
  end.

(** Programs that print: the text written so far is threaded along, and
    stays written when an exception ends the program.  Writing to the
    standard output is taken to succeed. *)
Definition io (A : Type) : Type := string -> result A * string.

Definition print (line : string) : io unit :=
  fun out => (Return tt, out +:+ line +:+ newline).

Definition lift {A} (c : result A) : io A := fun out => (c, out).

Definition io_bind {A B} (c : io A) (k : A -> io B) : io B :=
  fun out =>
    match c out with
    | (Return a, out') => k a out'
    | (Raise e, out') => (Raise e, out')
    end.

Notation "'io!' x <- c ;; k" := (io_bind c (fun x => k))
  (at level 10, x name, c at level 99, k at level 200,
   format "'[v' 'io!'  x  <-  c  ;;  '/' k ']'").

Fixpoint _print_matrix (matrix : list (list Number)) : io unit :=
  match matrix with
  | [] => lift (Return tt)
  | row :: rest =>
      io! parts <- lift (mapM format_g row) ;;
      io! _u <- print (join_spaces parts) ;;
      _print_matrix rest
  end.

(** What [json.loads] does with a text: it returns the decoded value, it
    raises [json.JSONDecodeError] with some detail (text that is not JSON),
    or it raises an exception that is not a [JSONDecodeError]: a plain
    [ValueError] for an integer literal beyond the digit limit,
    [RecursionError] for nesting too deep. *)
Inductive decoded : Type :=
| Decoded (value : pyobj)
| JSONDecodeError (exc : string)
| DecoderRaised (e : pyexc).

Section CLI.

(** [json.loads] *)
Variable json_loads : string -> decoded.

Definition _load_matrix_from_json_arg (arg name : string) : result (list (list Number)) :=
  match json_loads arg with
  | JSONDecodeError exc =>
      Raise (SystemExit ("Failed to parse " +:+ name +:+ " as JSON: " +:+ exc))
  | DecoderRaised e => Raise e
  | Decoded value =>
      match _validate_matrix value name with
      | Raise (TypeError msg) | Raise (ValueError msg) => Raise (SystemExit msg)
      | r => r
      end
  end.

Definition main (argv : list string) : io Z :=
  if decide (length argv = 1) then
    let a := int_matrix [[1; 2; 3]; [4; 5; 6]]%Z in
    let b := int_matrix [[7; 8]; [9; 10]; [11; 12]]%Z in
    io! c <- lift (multiply_matrices a b) ;;
    io! _u <- _print_matrix c ;;
    lift (Return 0%Z)
  else if decide (length argv = 3) then
    io! a <- lift (_load_matrix_from_json_arg (nth 1 argv "") "left") ;;
    io! b <- lift (_load_matrix_from_json_arg (nth 2 argv "") "right") ;;
    io! c <- lift (multiply_matrices (obj_of_matrix a) (obj_of_matrix b)) ;;
    io! _u <- _print_matrix c ;;
    lift (Return 0%Z)
  else
    io! _u <- print "Usage:" ;;
    io! _v <- print "  python main.py                          # demo" ;;
    io! _w <- print "  python main.py '<A_json>' '<B_json>'    # multiply A×B" ;;
    lift (Return 2%Z).

End CLI.

Definition float_of_Z (z : Z) : spec_float := binary_normalize prec emax z 0 false.

(** ** Notions used in the statements *)

(** A list or a tuple: a sequence that is not text. *)
Definition is_collection (o : pyobj) : bool :=
  isinstance_Sequence o && negb (isinstance_bytes_str o).

(** An int or a float that is not a boolean. *)
Definition is_number (o : pyobj) : bool :=
  isinstance_int_float o && negb (isinstance_bool o).

(** A row without fault: a collection of ints and floats only. *)
Definition good_row (o : pyobj) : bool :=
  is_collection o && forallb is_number (iter_items o).

(** A row that holds a boolean. *)
Definition bool_row (o : pyobj) : bool :=
  is_collection o && existsb isinstance_bool (iter_items o).

(** [r] rows, each of [c] elements. *)
Definition has_shape {A} (m : list (list A)) (r c : nat) : Prop :=
  length m = r ∧ Forall (fun row => length row = c) m.

(** Non-empty and rectangular (section 3 of the specification). *)
Definition well_formed {A} (m : list (list A)) (r c : nat) : Prop :=
  has_shape m r c ∧ 0 < r ∧ 0 < c.

Definition is_int (x : Number) : bool :=
  match x with NInt _ => true | NFloat _ => false end.

Definition numbers_of (M : list (list Z)) : list (list Number) := map (map NInt) M.

(** [M[i][j]], 0 outside the matrix. *)
Definition entry (M : list (list Z)) (i j : nat) : Z :=
  default 0%Z (M !! i ≫= (.!! j)).

(** [f 0 + ... + f (n - 1)] *)
Fixpoint big_sum (f : nat -> Z) (n : nat) : Z :=
  match n with
  | O => 0
  | S n' => big_sum f n' + f n'
  end.

(** The mathematical product: entry [(i, j)] is the sum over [k < n] of
    [A[i][k] * B[k][j]]. *)
Definition matprod_entry (A B : list (list Z)) (n i j : nat) : Z :=
  big_sum (fun k => entry A i k * entry B k j)%Z n.

Definition matprod (A B : list (list Z)) (m n p : nat) : list (list Z) :=
  map (fun i => map (fun j => matprod_entry A B n i j) (seq 0 p)) (seq 0 m).

(** [sub in s] *)
Fixpoint contains (sub s : string) : bool :=
  String.prefix sub s ||
  match s with
  | EmptyString => false
  | String _ s' => contains sub s'
  end.

(** ["RxC"] *)
Definition shape_text (r c : nat) : string := str_of_nat r +:+ "x" +:+ str_of_nat c.

(** [right[k][j] = v] *)
Definition set_entry (m : list (list Number)) (k j : nat) (v : Number) : list (list Number) :=
  match m !! k with
  | Some row => <[k := <[j := v]> row]> m
  | None => m
  end.

(** ** Notions used in the proofs *)

(** The two [TypeError]s of the validator. *)
Definition sequence_error (name : string) : pyexc :=
  TypeError (name +:+ " must be a sequence of sequences of numbers").
Definition number_error (name : string) : pyexc :=
  TypeError (name +:+ " must contain only numbers (int or float)").

(** The conversion of one row (lines 29-31). *)
Definition convert_row (name : string) (row : pyobj) : result (list Number) :=
  if negb (isinstance_Sequence row) || isinstance_bytes_str row then Raise (sequence_error name)
  else mapM (fun x => _ensure_number x name) (iter_items row).

(** Every element of a list updated in turn, [g i x] being the new value
    at index [i]. *)
Fixpoint imapM {X} (g : nat -> X -> result X) (i : nat) (l : list X) : result (list X) :=
  match l with
  | [] => Return []
  | x :: l' => do y <- g i x ;; do ys <- imapM g (S i) l' ;; Return (y :: ys)
  end.

(** The new value of [row_i[j]]. *)
Definition cell (aik : Number) (b_k : list Number) (j : nat) (old : Number) : result Number :=
  do bkj <- getitem b_k j ;; do p <- py_mul aik bkj ;; py_add old p.

(** One turn of the loop over [k], seen from the row [result[i]]; [skip]
    tells whether the zero test is made. *)
Definition row_step (skip : bool) (a b : list (list Number)) (b_cols i : nat)
    (row : list Number) (k : nat) : result (list Number) :=
  do a_i <- getitem a i ;;
  do aik <- getitem a_i k ;;
  if skip && py_eq_zero aik then Return row
  else do b_k <- getitem b k ;; foldM (loop_j aik b_k) (range b_cols) row.

Definition row_loop (skip : bool) (a b : list (list Number)) (a_cols b_cols i : nat)
    (row : list Number) : result (list Number) :=
  foldM (row_step skip a b b_cols i) (range a_cols) row.

(** The row of the sums over the first [k] indexes. *)
Definition partial_row (A B : list (list Z)) (i p k : nat) : list Number :=
  map (fun j => NInt (matprod_entry A B k i j)) (seq 0 p).

Definition is_float (x : Number) : bool :=
  match x with NFloat _ => true | NInt _ => false end.

(** The same number on both sides: identical values, or two zeros, where
    the left one may still be the int 0 the result started with. *)
Inductive same_number : Number -> Number -> Prop :=
| same_start : same_number (NInt 0) (NInt 0)
| same_int_zero s : same_number (NInt 0) (NFloat (S754_zero s))
| same_float f : same_number (NFloat f) (NFloat f)
| same_zeros s s' : same_number (NFloat (S754_zero s)) (NFloat (S754_zero s')).

(** The same value on both sides: identical, or the same number up to
    the kind of zero. *)
Definition same_value (x x' : Number) : Prop := x = x' ∨ same_number x x'.

(** Two runs with the same outcome: the same exception, or results that
    [R] relates. *)
Definition same_outcome {A} (R : A -> A -> Prop) (r r' : result A) : Prop :=
  match r, r' with
  | Return x, Return x' => R x x'
  | Raise e, Raise e' => e = e'
  | _, _ => False
  end.

Definition finite_spec (f : spec_float) : bool :=
  match f with
  | S754_zero _ | S754_finite _ _ _ => true
  | _ => false
  end.

(** A finite number: a float that is neither NaN nor an infinity, or an
    int whose conversion to float gives one. *)
Definition finite_number (x : Number) : bool :=
  match x with
  | NFloat f => finite_spec f
  | NInt z => match float_of_int z with Return f => finite_spec f | Raise _ => false end
  end.

(** A zero [x] of the left matrix meets [y] harmlessly: both are ints (the
    product is the int 0), or [y] is finite (the product is a float zero). *)
Definition harmless (x y : Number) : bool := is_int x && is_int y || finite_number y.

(** [x] and [y] meet in the cell [(i, j)]: they are [left[i][k]] and
    [right[k][j]] for some [k], [a_i] being row [i] of the left matrix. *)
Definition meets (a_i : list Number) (b : list (list Number)) (j : nat) (x y : Number) : Prop :=
  exists k, a_i !! k = Some x ∧ b !! k ≫= (.!! j) = Some y.

(** Every zero of [a_i] is the int 0 and meets an int. *)
Definition int_zeros (a_i : list Number) (b : list (list Number)) (j : nat) : Prop :=
  forall x y, meets a_i b j x y -> py_eq_zero x = true -> is_int x && is_int y = true.

(** Every zero of [a_i] meets harmlessly, and no product of the cell is a
    product of two ints. *)
Definition float_products (a_i : list Number) (b : list (list Number)) (j : nat) : Prop :=
  forall x y, meets a_i b j x y ->
    if py_eq_zero x then harmless x y = true else is_float x || is_float y = true.

Definition cell_safe (a_i : list Number) (b : list (list Number)) (j : nat) : Prop :=
  int_zeros a_i b j ∨ float_products a_i b j.

Definition float_zeros (x x' : Number) : Prop :=
  exists s s', x = NFloat (S754_zero s) ∧ x' = NFloat (S754_zero s').

(** What the two loops hold in the cell [(i, j)] at the same turn. *)
Definition cell_rel (a_i : list Number) (b : list (list Number)) (j : nat)
    (x x' : Number) : Prop :=
  (int_zeros a_i b j ∧ (x = x' ∨ float_zeros x x'))
  ∨ (float_products a_i b j ∧ same_number x x').

(** Two lists related element by element, the relation depending on the
    index, counted from [s]. *)
Fixpoint rel_from {X} (R : nat -> X -> X -> Prop) (s : nat) (l l' : list X) : Prop :=
  match l, l' with
  | [], [] => True
  | x :: l, x' :: l' => R s x x' ∧ rel_from R (S s) l l'
  | _, _ => False
  end.

Definition row_rel (a b : list (list Number)) (p i : nat) (row row' : list Number) : Prop :=
  exists a_i, a !! i = Some a_i ∧ length row = p ∧ rel_from (cell_rel a_i b) 0 row row'.

(** ** Notions used in the further properties *)

(** The number of items of each row of a raw value. *)
Definition row_sizes (o : pyobj) : list nat :=
  map (fun row => length (iter_items row)) (iter_items o).

(** A raw row and its converted copy hold the same values. *)
Definition same_values (row : pyobj) (r : list Number) : Prop :=
  is_collection row = true ∧ iter_items row = map obj_of_number r.

(** The int 0 a result cell starts with, or a float. *)
Definition start_or_float (x : Number) : bool :=
  match x with
  | NInt z => (z =? 0)%Z
  | NFloat _ => true
  end.

(** A row of [p] such cells. *)
Definition float_row (p : nat) (row : list Number) : Prop :=
  length row = p ∧ Forall (fun x => start_or_float x = true) row.

(** The identity matrix of size [n]. *)
Definition identity (n : nat) : list (list Z) :=
  map (fun i => map (fun j => if decide (i = j) then 1%Z else 0%Z) (seq 0 n)) (seq 0 n).

(** What the loops do to the single cell [result[i][j]] at turn [k], [a_i]
    being row [i] of the left matrix. *)
Definition cell_step (a_i : list Number) (b : list (list Number)) (j : nat)
    (acc : Number) (k : nat) : result Number :=
  do aik <- getitem a_i k ;;
  if py_eq_zero aik then Return acc
  else do b_k <- getitem b k ;; do bkj <- getitem b_k j ;;
       do p <- py_mul aik bkj ;; py_add acc p.

(** The cell [(i, j)] summed on its own: from the int 0, over [k] in
    increasing order, the zeros of [a_i] left out. *)
Definition cell_sum (a_i : list Number) (b : list (list Number)) (n j : nat) : result Number :=
  foldM (cell_step a_i b j) (range n) (NInt 0).

(** A number [format_g] can render: any float, and an int within the
    range of float. *)
Definition printable (x : Number) : bool :=
  match x with
  | NInt z => match float_of_int z with Return _ => true | Raise _ => false end
  | NFloat _ => true
  end.

(** The text [format_g] gives for a number it can render. *)
Definition render (x : Number) : string :=
  Format.format_float
    match x with
    | NInt z => float_of_Z z
    | NFloat f => f
    end.

(** The line printed for a row: its elements rendered, one space between
    two of them, then the end of line. *)
Definition printed_line (row : list Number) : string :=
  join_spaces (map render row) +:+ newline.

(** The lines of the rows up to the first row that cannot be rendered. *)
Fixpoint printed_text (matrix : list (list Number)) : string :=
  match matrix with
  | [] => ""
  | row :: rest =>
      if forallb printable row then printed_line row +:+ printed_text rest else ""
  end.

(** The three lines printed for a wrong number of arguments. *)
Definition usage_text : string :=
  "Usage:" +:+ newline
  +:+ "  python main.py                          # demo" +:+ newline
  +:+ "  python main.py '<A_json>' '<B_json>'    # multiply A×B" +:+ newline.

(** A decoder that knows two texts, to run [main] on. *)
Definition sample_loads (text : string) : decoded :=
  if String.eqb text "[[1,2]]" then Decoded (PList [PList [PInt 1; PInt 2]])
  else if String.eqb text "[[3],[4]]" then Decoded (PList [PList [PInt 3]; PList [PInt 4]])
  else if String.eqb text "[[[[" then DecoderRaised RecursionError
  else JSONDecodeError "Expecting value: line 1 column 1 (char 0)".

(** * Checks on concrete inputs *)

Example validate_demo :
  _validate_matrix (PList [PList [PInt 1; PFloat (S754_zero false)]; PTuple [PInt 3; PInt 4]]) "left"
  = Return [[NInt 1; NFloat (S754_zero false)]; [NInt 3; NInt 4]].
Proof. vm_compute. reflexivity. Qed.

Example validate_ragged :
  _validate_matrix (PList [PList [PInt 1]; PList [PInt 3; PInt 4]]) "left"
  = Raise (ValueError "left must be rectangular (all rows same length)").
Proof. vm_compute. reflexivity. Qed.

Example multiply_demo :
  multiply_matrices (int_matrix [[1; 2; 3]; [4; 5; 6]]%Z) (int_matrix [[7; 8]; [9; 10]; [11; 12]]%Z)
  = Return [[NInt 58; NInt 64]; [NInt 139; NInt 154]].
Proof. vm_compute. reflexivity. Qed.

Example multiply_zero_left :
  multiply_matrices (int_matrix [[0; 2]]%Z) (int_matrix [[1]; [3]]%Z) = Return [[NInt 6]].
Proof. vm_compute. reflexivity. Qed.

Example multiply_shape_error :
  multiply_matrices (int_matrix [[1; 2; 3]; [4; 5; 6]]%Z) (int_matrix [[1; 2]; [3; 4]]%Z)
  = Raise (ValueError "Incompatible shapes for multiplication: left is 2x3, right is 2x2").
Proof. vm_compute. reflexivity. Qed.

Example skip_hides_nan :
  multiply_matrices (int_matrix [[0]]%Z) (PList [PList [PFloat S754_nan]]) = Return [[NInt 0]]
  /\ naive_multiply (int_matrix [[0]]%Z) (PList [PList [PFloat S754_nan]]) = Return [[NFloat S754_nan]].
Proof. vm_compute. split; reflexivity. Qed.

Example float_of_int_rounds :
  float_of_int (2 ^ 53 + 1) = Return (S754_finite false (2 ^ 52) 1)
  /\ float_of_int (2 ^ 1024) = Raise OverflowError
  /\ float_of_int (2 ^ 1024 - 2 ^ 970 - 1) = Return (S754_finite false (2 ^ 53 - 1) 971).
Proof. vm_compute. repeat split; reflexivity. Qed.

Example format_g_samples :
  map format_g [NInt 58; NInt 0; NInt (-7); NInt 100000; NInt 1234567; NInt 999999;
                NInt 123456789012; NInt (10 ^ 22)]
  = map Return ["58"; "0"; "-7"; "100000"; "1.23457e+06"; "999999"; "1.23457e+11"; "1e+22"].
Proof. vm_compute. reflexivity. Qed.

Example format_g_float_samples :
  map Format.format_float
    [float_of_Z 7; S754_finite false 15 (-1); S754_finite false 1999999 (-1);
     SFdiv prec emax (float_of_Z 1) (float_of_Z 10000);
     SFdiv prec emax (float_of_Z 1) (float_of_Z 100000);
     SFdiv prec emax (float_of_Z 1) (float_of_Z 3);
     SFadd prec emax (SFdiv prec emax (float_of_Z 1) (float_of_Z 10))
                     (SFdiv prec emax (float_of_Z 2) (float_of_Z 10));
     S754_finite true 1 (-1074); S754_zero true; S754_infinity true; S754_nan;
     S754_finite false 246913 (-1)]
  = ["7"; "7.5"; "1e+06"; "0.0001"; "1e-05"; "0.333333"; "0.3"; "-4.94066e-324"; "-0";
     "-inf"; "nan"; "123456"].
Proof. vm_compute. reflexivity. Qed.

Example format_g_overflow : format_g (NInt (10 ^ 400)) = Raise OverflowError.
Proof. vm_compute. reflexivity. Qed.

Example main_demo (json_loads : string -> decoded) :
  main json_loads ["main.py"] ""
  = (Return 0%Z, "58 64" +:+ newline +:+ "139 154" +:+ newline).
Proof. vm_compute. reflexivity. Qed.

Example main_usage (json_loads : string -> decoded) :
  fst (main json_loads ["main.py"; "[[1]]"] "") = Return 2%Z.
Proof. vm_compute. reflexivity. Qed.

(** * The exception monad and the loops *)

Lemma bind_Return {A B} (c : result A) (k : A -> result B) (b : B) :
  (do x <- c ;; k x) = Return b -> exists a, c = Return a ∧ k a = Return b.
Proof. destruct c as [a|e]; simpl; [eauto | discriminate]. Qed.

Lemma bind_Raise {A B} (c : result A) (k : A -> result B) (e : pyexc) :
  (do x <- c ;; k x) = Raise e -> c = Raise e ∨ exists a, c = Return a ∧ k a = Raise e.
Proof. destruct c as [a|e']; simpl; [eauto | intros [= ->]; auto]. Qed.

Lemma bind_assoc {A B C} (c : result A) (k : A -> result B) (h : B -> result C) :
  (do y <- (do x <- c ;; k x) ;; h y) = (do x <- c ;; do y <- k x ;; h y).
Proof. destruct c; reflexivity. Qed.

Lemma bind_Return_r {A} (c : result A) : (do x <- c ;; Return x) = c.
Proof. destruct c; reflexivity. Qed.

Lemma foldM_app {A S} (f : S -> A -> result S) (l1 l2 : list A) (s : S) :
  foldM f (l1 ++ l2) s = (do s' <- foldM f l1 s ;; foldM f l2 s').
Proof.
  revert s. induction l1 as [|x l1 IH]; intros s; simpl; [reflexivity|].
  destruct (f s x); simpl; auto.
Qed.

Lemma foldM_ext_in {A S} (f g : S -> A -> result S) (l : list A) (s : S) :
  (forall s' x, x ∈ l -> f s' x = g s' x) -> foldM f l s = foldM g l s.
Proof.
  revert s. induction l as [|x l IH]; intros s Hfg; simpl; [reflexivity|].
  rewrite Hfg by constructor. destruct (g s x); simpl; [|reflexivity].
  apply IH. intros s' y Hy. apply Hfg. by constructor.
Qed.

Lemma mapM_Return {A B} (f : A -> result B) (l : list A) (l' : list B) :
  mapM f l = Return l' <-> Forall2 (fun x y => f x = Return y) l l'.
Proof.
  revert l'. induction l as [|x l IH]; intros l'; simpl.
  - split; [intros [= <-]; constructor | intros H; by inversion H].
  - split.
    + intros H. apply bind_Return in H as (y & Hy & H).
      apply bind_Return in H as (ys & Hys & [= <-]).
      constructor; [done | by apply IH].
    + intros H. inversion H as [|? y ? ys Hy Hys]; subst.
      apply IH in Hys. by rewrite Hy, Hys.
Qed.

Lemma mapM_Raise {A B} (f : A -> result B) (l : list A) (e : pyexc) :
  mapM f l = Raise e -> exists x, x ∈ l ∧ f x = Raise e.
Proof.
  induction l as [|x l IH]; simpl; [discriminate|].
  intros H. apply bind_Raise in H as [H | (y & Hy & H)].
  - exists x. split; [constructor | done].
  - apply bind_Raise in H as [H | (ys & _ & H)]; [|discriminate].
    destruct (IH H) as (x' & Hin & Hx'). exists x'. split; [by constructor | done].
Qed.

Lemma getitem_Some {A} (l : list A) (i : nat) (x : A) :
  l !! i = Some x -> getitem l i = Return x.
Proof. unfold getitem. by intros ->. Qed.

(** * The validator *)

Section Validator.

Variable name : string.

Lemma ensure_number_Return (v : pyobj) :
  is_number v = true -> exists x, _ensure_number v name = Return x ∧ v = obj_of_number x.
Proof.
  unfold is_number. destruct v; simpl; try discriminate; intros _.
  - by exists (NInt z).
  - by exists (NFloat f).
Qed.

Lemma ensure_number_Raise (v : pyobj) :
  is_number v = false -> _ensure_number v name = Raise (number_error name).
Proof. unfold is_number, _ensure_number. by intros ->. Qed.

Lemma ensure_number_cases (v : pyobj) (e : pyexc) :
  _ensure_number v name = Raise e -> e = number_error name.
Proof.
  unfold _ensure_number, number_error.
  destruct (isinstance_int_float v && negb (isinstance_bool v));
    [destruct v|]; congruence.
Qed.

Lemma ensure_number_of_number (x : Number) :
  _ensure_number (obj_of_number x) name = Return x.
Proof. by destruct x. Qed.

Lemma validate_row_convert (rows : list (list Number)) (row : pyobj) :
  validate_row name rows row = (do r <- convert_row name row ;; Return (rows ++ [r])).
Proof.
  unfold validate_row, convert_row.
  by destruct (negb (isinstance_Sequence row) || isinstance_bytes_str row).
Qed.

Lemma not_collection_test (o : pyobj) :
  negb (isinstance_Sequence o) || isinstance_bytes_str o = negb (is_collection o).
Proof. by destruct o. Qed.

Lemma convert_row_not_collection (row : pyobj) :
  is_collection row = false -> convert_row name row = Raise (sequence_error name).
Proof. unfold convert_row. rewrite not_collection_test. by intros ->. Qed.

Lemma convert_row_good (row : pyobj) :
  good_row row = true -> exists r, convert_row name row = Return r.
Proof.
  unfold good_row, convert_row. rewrite not_collection_test.
  intros [-> Hall]%andb_true_iff. simpl.
  induction (iter_items row) as [|x l IH]; simpl; [by eexists|].
  simpl in Hall. apply andb_true_iff in Hall as [Hx Hl].
  destruct (ensure_number_Return x Hx) as (y & -> & _).
  destruct (IH Hl) as (r & ->). by eexists.
Qed.

Lemma convert_row_bool (row : pyobj) :
  bool_row row = true -> convert_row name row = Raise (number_error name).
Proof.
  unfold bool_row, convert_row. rewrite not_collection_test.
  intros [-> Hex]%andb_true_iff. simpl.
  induction (iter_items row) as [|x l IH]; simpl; [discriminate|].
  simpl in Hex. destruct (is_number x) eqn:Hx.
  - destruct (ensure_number_Return x Hx) as (y & -> & ->). simpl.
    destruct y; simpl in Hex; by rewrite IH.
  - by rewrite ensure_number_Raise.
Qed.

Lemma convert_row_Raise (row : pyobj) (e : pyexc) :
  convert_row name row = Raise e -> e = sequence_error name ∨ e = number_error name.
Proof.
  unfold convert_row.
  destruct (negb (isinstance_Sequence row) || isinstance_bytes_str row).
  - intros [= <-]. by left.
  - intros (x & _ & Hx)%mapM_Raise. right. by eapply ensure_number_cases.
Qed.

(** The loop over the rows converts them one after the other and stops at
    the first row that fails. *)
Lemma validate_rows_mapM (items : list pyobj) (acc : list (list Number)) :
  foldM (validate_row name) items acc
  = (do rows <- mapM (convert_row name) items ;; Return (acc ++ rows)).
Proof.
  revert acc. induction items as [|row items IH]; intros acc; simpl.
  - by rewrite app_nil_r.
  - rewrite validate_row_convert. destruct (convert_row name row) as [r|e]; simpl; [|done].
    rewrite IH. destruct (mapM (convert_row name) items); simpl; [|done].
    by rewrite <- app_assoc.
Qed.

Lemma validate_collection (o : pyobj) :
  is_collection o = true ->
  _validate_matrix o name
  = (do rows <- mapM (convert_row name) (iter_items o) ;;
     if decide (length rows = 0) then Raise (ValueError (name +:+ " must have at least one row"))
     else if decide (0 ∈ (list_to_set (map length rows) : gset nat)) then
       Raise (ValueError (name +:+ " rows must be non-empty"))
     else if decide (size (list_to_set (map length rows) : gset nat) ≠ 1) then
       Raise (ValueError (name +:+ " must be rectangular (all rows same length)"))
     else Return rows).
Proof.
  intros Hc. unfold _validate_matrix. rewrite not_collection_test, Hc. simpl.
  rewrite validate_rows_mapM. by destruct (mapM (convert_row name) (iter_items o)).
Qed.

Lemma validate_not_collection (o : pyobj) :
  is_collection o = false -> _validate_matrix o name = Raise (sequence_error name).
Proof. intros Hc. unfold _validate_matrix. by rewrite not_collection_test, Hc. Qed.

(** Every failure of the validator is one of five errors, each labelled
    with the name of the input. *)
Lemma validate_Raise (o : pyobj) (e : pyexc) :
  _validate_matrix o name = Raise e ->
  e ∈ [sequence_error name; number_error name;
       ValueError (name +:+ " must have at least one row");
       ValueError (name +:+ " rows must be non-empty");
       ValueError (name +:+ " must be rectangular (all rows same length)")].
Proof.
  destruct (is_collection o) eqn:Hc.
  - rewrite validate_collection by done.
    intros [H | (rows & _ & H)]%bind_Raise.
    + apply mapM_Raise in H as (row & _ & H).
      apply convert_row_Raise in H as [-> | ->]; set_solver.
    + repeat destruct (decide _); try discriminate; injection H as <-;
        apply list_elem_of_In; simpl; auto 10.
  - rewrite validate_not_collection by done. intros [= <-]. set_solver.
Qed.

End Validator.

(** ** What the validator accepts *)

Lemma lengths_singleton (l : list nat) (c : nat) :
  l ≠ [] -> Forall (fun n => n = c) l -> (list_to_set l : gset nat) = {[c]}.
Proof.
  intros Hne Hall. apply set_eq. intros x.
  rewrite elem_of_list_to_set, elem_of_singleton. split.
  - intros Hx. by eapply Forall_forall in Hall; [|exact Hx].
  - intros ->. destruct l as [|n l]; [done|].
    inversion Hall; subst. constructor.
Qed.

Lemma lengths_of_singleton (l : list nat) :
  size (list_to_set l : gset nat) = 1 -> exists c, Forall (fun n => n = c) l.
Proof.
  intros (c & Hc)%size_1_elem_of. exists c. apply Forall_forall. intros n Hn.
  assert (n ∈ (list_to_set l : gset nat)) as Hin by by apply elem_of_list_to_set.
  rewrite Hc in Hin. by apply elem_of_singleton in Hin.
Qed.

Lemma convert_row_of_numbers (name : string) (r : list Number) :
  convert_row name (PList (map obj_of_number r)) = Return r.
Proof.
  unfold convert_row. simpl.
  induction r as [|x r IH]; simpl; [done|].
  by rewrite ensure_number_of_number, IH.
Qed.

Lemma convert_rows_of_matrix (name : string) (m : list (list Number)) :
  mapM (convert_row name) (map (fun r => PList (map obj_of_number r)) m) = Return m.
Proof.
  induction m as [|r m IH]; simpl; [done|].
  by rewrite convert_row_of_numbers, IH.
Qed.

(** A well-formed matrix passes validation and comes back as it is. *)
Lemma validate_well_formed (name : string) (m : list (list Number)) (r c : nat) :
  well_formed m r c -> _validate_matrix (obj_of_matrix m) name = Return m.
Proof.
  intros ((Hr & Hc) & Hr0 & Hc0).
  rewrite validate_collection by done. simpl.
  rewrite convert_rows_of_matrix. simpl.
  assert ((list_to_set (map length m) : gset nat) = {[c]}) as ->.
  { apply lengths_singleton.
    - destruct m; [simpl in Hr; lia | done].
    - by apply Forall_map. }
  destruct (decide (length m = 0)); [lia|].
  destruct (decide (0 ∈ ({[c]} : gset nat))) as [Hin|_].
  { apply elem_of_singleton in Hin. lia. }
  rewrite size_singleton. by destruct (decide (1 ≠ 1)).
Qed.

(** Whatever the validator returns is non-empty and rectangular. *)
Lemma validate_Return_well_formed (name : string) (o : pyobj) (m : list (list Number)) :
  _validate_matrix o name = Return m -> exists c, well_formed m (length m) c.
Proof.
  destruct (is_collection o) eqn:Hcoll;
    [|by rewrite validate_not_collection].
  rewrite validate_collection by done.
  intros (rows & _ & H)%bind_Return.
  destruct (decide (length rows = 0)) as [|Hlen]; [done|].
  destruct (decide (0 ∈ _)) as [|Hzero]; [done|].
  destruct (decide (size _ ≠ 1)) as [|Hsize]; [done|].
  injection H as ->.
  assert (size (list_to_set (map length m) : gset nat) = 1) as Hone.
  { destruct (decide (size (list_to_set (map length m) : gset nat) = 1)); done. }
  destruct (lengths_of_singleton _ Hone) as (c & Hc).
  exists c. repeat split.
  - by apply Forall_map in Hc.
  - lia.
  - destruct (decide (c = 0)) as [->|]; [|lia].
    exfalso. apply Hzero, elem_of_list_to_set.
    destruct m as [|row m]; [done|]. apply Forall_cons in Hc as [Hrow _].
    simpl. rewrite Hrow. constructor.
Qed.

Lemma well_formed_first_row {A} (m : list (list A)) (r c : nat) :
  well_formed m r c -> exists row, m !! 0 = Some row ∧ length row = c.
Proof.
  intros ((Hr & Hc) & Hr0 & _). destruct m as [|row m]; [simpl in Hr; lia|].
  exists row. split; [done|]. by inversion Hc.
Qed.

Lemma has_shape_lookup {A} (m : list (list A)) (r c i : nat) (row : list A) :
  has_shape m r c -> m !! i = Some row -> length row = c.
Proof. intros [_ Hc] Hi. by eapply Forall_lookup in Hc. Qed.

Lemma well_formed_unique {A} (m : list (list A)) (r c r' c' : nat) :
  well_formed m r c -> has_shape m r' c' -> r = r' ∧ c = c'.
Proof.
  intros Hwf [Hr' Hc']. destruct (well_formed_first_row _ _ _ Hwf) as (row & Hrow & Hlen).
  destruct Hwf as ((Hr & _) & _). split; [lia|].
  eapply Forall_lookup in Hc'; [|exact Hrow]. simpl in Hc'. lia.
Qed.

(** ** What the validator rejects *)

Lemma mapM_first_Raise {A B} (f : A -> result B) (pre post : list A) (x : A) (e : pyexc) :
  Forall (fun y => exists z, f y = Return z) pre -> f x = Raise e ->
  mapM f (pre ++ x :: post) = Raise e.
Proof.
  intros Hpre Hx. induction Hpre as [|y pre (z & Hz) _ IH]; simpl.
  - by rewrite Hx.
  - by rewrite Hz, IH.
Qed.

Lemma mapM_some_Raise {A B} (f : A -> result B) (l : list A) (x : A) (e : pyexc) :
  x ∈ l -> f x = Raise e -> exists e', mapM f l = Raise e'.
Proof.
  intros Hin Hx. induction l as [|y l IH]; [by apply elem_of_nil in Hin|].
  simpl. destruct (f y) as [z|e'] eqn:Hy; simpl; [|by eexists].
  apply elem_of_cons in Hin as [->|Hin]; [congruence|].
  destruct (IH Hin) as (e' & ->). by eexists.
Qed.

(** A row that cannot be converted makes the validator fail inside its
    loop, hence with one of the two [TypeError]s. *)
Lemma validate_bad_row (name : string) (o row : pyobj) (e : pyexc) :
  is_collection o = true -> row ∈ iter_items o -> convert_row name row = Raise e ->
  _validate_matrix o name = Raise (sequence_error name)
  ∨ _validate_matrix o name = Raise (number_error name).
Proof.
  intros Hc Hin Hrow. rewrite validate_collection by done.
  destruct (mapM_some_Raise _ _ _ _ Hin Hrow) as (e' & He'). rewrite He'. simpl.
  apply mapM_Raise in He' as (row' & _ & He').
  apply convert_row_Raise in He' as [-> | ->]; auto.
Qed.

(** C5. An empty list or tuple (a collection with zero rows) is rejected
    with the [ValueError] whose message is the label of the input followed
    by "must have at least one row". *)
Theorem empty_collection_rejected (o : pyobj) (name : string) :
  is_collection o = true -> iter_items o = [] ->
  _validate_matrix o name = Raise (ValueError (name +:+ " must have at least one row")).
Proof.
  intros Hc Hitems. rewrite validate_collection by done. by rewrite Hitems.
Qed.

Lemma empty_collection_rejected_witness :
  is_collection (PTuple []) = true ∧ iter_items (PTuple []) = [] ∧
  _validate_matrix (PTuple []) "right" = Raise (ValueError "right must have at least one row").
Proof.
  split; [reflexivity|]. split; [reflexivity|].
  apply (empty_collection_rejected (PTuple []) "right"); reflexivity.
Defined.

(** C6, as the code has it.  When a list or tuple holds an element that is
    not itself a list or tuple, validation fails with a [TypeError]; the
    message is "<label> must be a sequence of sequences of numbers" when
    every row before that element is a collection of numbers, and otherwise
    the "must contain only numbers" message of an earlier row may come
    first. *)
Theorem row_not_collection_rejected (o : pyobj) (name : string) :
  is_collection o = true ->
  (exists x, x ∈ iter_items o ∧ is_collection x = false) ->
  (_validate_matrix o name
     = Raise (TypeError (name +:+ " must be a sequence of sequences of numbers"))
   ∨ _validate_matrix o name
     = Raise (TypeError (name +:+ " must contain only numbers (int or float)")))
  ∧ (forall pre x post,
       iter_items o = pre ++ x :: post -> forallb good_row pre = true ->
       is_collection x = false ->
       _validate_matrix o name
       = Raise (TypeError (name +:+ " must be a sequence of sequences of numbers"))).
Proof.
  intros Hc (x & Hin & Hx). split.
  - eapply validate_bad_row; [done | exact Hin | by apply convert_row_not_collection].
  - intros pre y post Hitems Hpre Hy.
    rewrite validate_collection by done. rewrite Hitems.
    rewrite (mapM_first_Raise _ pre post y (sequence_error name)); [done | |].
    + apply Forall_forall. intros r Hr. apply convert_row_good.
      rewrite forallb_forall in Hpre. by apply Hpre, list_elem_of_In.
    + by apply convert_row_not_collection.
Qed.

Lemma row_not_collection_rejected_witness :
  _validate_matrix (PList [PList [PInt 1]; PStr "23"]) "left"
  = Raise (TypeError "left must be a sequence of sequences of numbers").
Proof.
  refine (proj2 (row_not_collection_rejected (PList [PList [PInt 1]; PStr "23"]) "left" _ _)
            [PList [PInt 1]] (PStr "23") [] _ _ _); try reflexivity.
  exists (PStr "23"). split; [|reflexivity].
  apply list_elem_of_In. simpl. auto.
Defined.

(** C6 as stated fails: a number in place of a row raises a [TypeError],
    not a [ValueError]; and after a row holding a boolean the message is
    that of the boolean, not "must be a sequence of sequences of numbers". *)
Lemma row_not_collection_not_ValueError :
  is_collection (PList [PInt 5]) = true
  ∧ PInt 5 ∈ iter_items (PList [PInt 5]) ∧ is_collection (PInt 5) = false
  ∧ _validate_matrix (PList [PInt 5]) "left"
    = Raise (TypeError "left must be a sequence of sequences of numbers")
  ∧ (forall msg, _validate_matrix (PList [PInt 5]) "left" ≠ Raise (ValueError msg))
  ∧ _validate_matrix (PList [PList [PBool true]; PInt 5]) "left"
    = Raise (TypeError "left must contain only numbers (int or float)").
Proof.
  split; [reflexivity|]. split; [constructor|]. split; [reflexivity|].
  split; [reflexivity|]. split; [|reflexivity].
  intros msg. vm_compute. discriminate.
Qed.

(** C4. A matrix with a boolean element in one of its rows is rejected by
    the validator with a [TypeError], under every label; so
    [multiply_matrices] raises a [TypeError] when the boolean is in its left
    argument, and when it is in its right argument and the left one is
    valid. *)
Theorem boolean_element_rejected (o : pyobj) :
  is_collection o = true ->
  (exists row, row ∈ iter_items o ∧ bool_row row = true) ->
  (forall name, exists msg, _validate_matrix o name = Raise (TypeError msg))
  ∧ (forall right, exists msg, multiply_matrices o right = Raise (TypeError msg))
  ∧ (forall left a, _validate_matrix left "left" = Return a ->
       exists msg, multiply_matrices left o = Raise (TypeError msg)).
Proof.
  intros Hc (row & Hin & Hrow).
  assert (forall name, exists msg, _validate_matrix o name = Raise (TypeError msg)) as Hval.
  { intros name.
    destruct (validate_bad_row name o row _ Hc Hin (convert_row_bool name row Hrow))
      as [-> | ->]; by eexists. }
  split; [exact Hval|]. split.
  - intros right. destruct (Hval "left") as (msg & Hmsg).
    exists msg. unfold multiply_matrices. by rewrite Hmsg.
  - intros left a Ha. destruct (Hval "right") as (msg & Hmsg).
    exists msg. unfold multiply_matrices. by rewrite Ha, Hmsg.
Qed.

Lemma boolean_element_rejected_witness :
  exists msg, _validate_matrix (PList [PList [PInt 1; PBool true]]) "left" = Raise (TypeError msg).
Proof.
  refine (proj1 (boolean_element_rejected (PList [PList [PInt 1; PBool true]]) _ _) "left").
  - reflexivity.
  - exists (PList [PInt 1; PBool true]). split; [constructor | reflexivity].
Defined.

(** C9. The left argument is validated first: when its validation fails,
    [multiply_matrices] raises that very error whatever the right argument
    is (invalid or not), and the message starts with the label "left". *)
Theorem left_validated_first (left right : pyobj) (e : pyexc) :
  _validate_matrix left "left" = Raise e ->
  multiply_matrices left right = Raise e ∧ String.prefix "left " (message e) = true.
Proof.
  intros He. split.
  - unfold multiply_matrices. by rewrite He.
  - apply validate_Raise, list_elem_of_In in He. simpl in He.
    destruct He as [<-|[<-|[<-|[<-|[<-|[]]]]]]; reflexivity.
Qed.

Lemma left_validated_first_witness :
  _validate_matrix (PList []) "left" = Raise (ValueError "left must have at least one row")
  ∧ _validate_matrix (PInt 3) "right"
    = Raise (TypeError "right must be a sequence of sequences of numbers")
  ∧ multiply_matrices (PList []) (PInt 3) = Raise (ValueError "left must have at least one row")
  ∧ String.prefix "left " "left must have at least one row" = true.
Proof.
  split; [reflexivity|]. split; [reflexivity|].
  apply (left_validated_first (PList []) (PInt 3)
           (ValueError "left must have at least one row")).
  reflexivity.
Defined.

(** * The multiplier *)

(** ** Text of the shape error *)

Lemma append_cons (c : ascii) (s t : string) : String c s +:+ t = String c (s +:+ t).
Proof. reflexivity. Qed.

Lemma append_assoc (s t u : string) : (s +:+ t) +:+ u = s +:+ t +:+ u.
Proof.
  induction s as [|c s IH]; [reflexivity|].
  by rewrite !append_cons, IH.
Qed.

Lemma prefix_append (s t : string) : String.prefix s (s +:+ t) = true.
Proof.
  induction s as [|c s IH]; [by destruct t|].
  rewrite append_cons. simpl. by destruct (ascii_dec c c).
Qed.

Lemma contains_unfold (sub s : string) :
  contains sub s
  = String.prefix sub s || match s with EmptyString => false | String _ s' => contains sub s' end.
Proof. by destruct s. Qed.

Lemma contains_here (sub q : string) : contains sub (sub +:+ q) = true.
Proof. by rewrite contains_unfold, prefix_append. Qed.

Lemma contains_later (sub p s : string) :
  contains sub s = true -> contains sub (p +:+ s) = true.
Proof.
  intros H. induction p as [|c p IH]; [exact H|].
  rewrite append_cons, contains_unfold, IH. apply orb_true_r.
Qed.

Lemma contains_middle (sub p q : string) : contains sub (p +:+ sub +:+ q) = true.
Proof. apply contains_later, contains_here. Qed.

Lemma append_empty_r (s : string) : s +:+ "" = s.
Proof. induction s as [|c s IH]; [reflexivity | by rewrite append_cons, IH]. Qed.

Lemma contains_self (sub : string) : contains sub sub = true.
Proof. rewrite <- (append_empty_r sub) at 2. apply contains_here. Qed.

Lemma shape_message_left (r1 c1 r2 c2 : nat) :
  contains (shape_text r1 c1) (shape_message r1 c1 r2 c2) = true.
Proof.
  unfold shape_message, shape_text.
  assert (forall rest, str_of_nat r1 +:+ "x" +:+ str_of_nat c1 +:+ rest
                       = (str_of_nat r1 +:+ "x" +:+ str_of_nat c1) +:+ rest) as E.
  { intros rest. by rewrite !append_assoc. }
  rewrite E. apply contains_middle.
Qed.

Lemma shape_message_right (r1 c1 r2 c2 : nat) :
  contains (shape_text r2 c2) (shape_message r1 c1 r2 c2) = true.
Proof.
  unfold shape_message, shape_text.
  do 5 apply contains_later. apply contains_self.
Qed.

(** ** Incompatible shapes *)

Lemma multiply_validated_shapes (a b : list (list Number)) (r1 c1 r2 c2 : nat) :
  well_formed a r1 c1 -> well_formed b r2 c2 ->
  multiply_validated a b
  = if decide (c1 ≠ r2) then Raise (ValueError (shape_message r1 c1 r2 c2))
    else foldM (loop_i a b c1 c2) (range r1) (replicate r1 (replicate c2 (NInt 0))).
Proof.
  intros Ha Hb.
  destruct (well_formed_first_row _ _ _ Ha) as (a0 & Ha0 & Hc1).
  destruct (well_formed_first_row _ _ _ Hb) as (b0 & Hb0 & Hc2).
  destruct Ha as ((Hr1 & _) & _), Hb as ((Hr2 & _) & _).
  unfold multiply_validated.
  rewrite (getitem_Some _ _ _ Ha0), (getitem_Some _ _ _ Hb0). simpl.
  by rewrite Hr1, Hr2, Hc1, Hc2.
Qed.

(** C3. Two valid matrices whose inner dimensions disagree make
    [multiply_matrices] fail with the [ValueError] whose message gives both
    shapes, as "R1xC1" and "R2xC2". *)
Theorem incompatible_shapes_rejected (left right : pyobj) (a b : list (list Number))
    (r1 c1 r2 c2 : nat) :
  _validate_matrix left "left" = Return a ->
  _validate_matrix right "right" = Return b ->
  has_shape a r1 c1 -> has_shape b r2 c2 -> c1 ≠ r2 ->
  multiply_matrices left right = Raise (ValueError (shape_message r1 c1 r2 c2))
  ∧ contains (shape_text r1 c1) (shape_message r1 c1 r2 c2) = true
  ∧ contains (shape_text r2 c2) (shape_message r1 c1 r2 c2) = true.
Proof.
  intros Hl Hr Ha Hb Hne.
  split; [|split; [apply shape_message_left | apply shape_message_right]].
  destruct (validate_Return_well_formed _ _ _ Hl) as (c & Hwa).
  destruct (validate_Return_well_formed _ _ _ Hr) as (c' & Hwb).
  destruct (well_formed_unique _ _ _ _ _ Hwa Ha) as [<- <-].
  destruct (well_formed_unique _ _ _ _ _ Hwb Hb) as [<- <-].
  unfold multiply_matrices. rewrite Hl, Hr. simpl.
  rewrite (multiply_validated_shapes _ _ _ _ _ _ Hwa Hwb).
  by destruct (decide (c ≠ length b)).
Qed.

Lemma incompatible_shapes_rejected_witness :
  multiply_matrices (int_matrix [[1; 2; 3]; [4; 5; 6]]%Z) (int_matrix [[1; 2]; [3; 4]]%Z)
  = Raise (ValueError "Incompatible shapes for multiplication: left is 2x3, right is 2x2")
  ∧ contains "2x3" "Incompatible shapes for multiplication: left is 2x3, right is 2x2" = true
  ∧ contains "2x2" "Incompatible shapes for multiplication: left is 2x3, right is 2x2" = true.
Proof.
  apply (incompatible_shapes_rejected
           (int_matrix [[1; 2; 3]; [4; 5; 6]]%Z) (int_matrix [[1; 2]; [3; 4]]%Z)
           [[NInt 1; NInt 2; NInt 3]; [NInt 4; NInt 5; NInt 6]]
           [[NInt 1; NInt 2]; [NInt 3; NInt 4]] 2 3 2 2).
  - vm_compute. reflexivity.
  - vm_compute. reflexivity.
  - split; [reflexivity|]. repeat constructor.
  - split; [reflexivity|]. repeat constructor.
  - lia.
Defined.

(** ** The loops, element by element *)

(** A loop over the indexes of a list that rewrites the element at the
    current index updates every element in turn. *)
Lemma foldM_pointwise {X} (step : list X -> nat -> result (list X))
    (g : nat -> X -> result X) :
  (forall s i x, s !! i = Some x -> step s i = (do y <- g i x ;; Return (<[i := y]> s))) ->
  forall l pre,
    foldM step (seq (length pre) (length l)) (pre ++ l)
    = (do ys <- imapM g (length pre) l ;; Return (pre ++ ys)).
Proof.
  intros Hstep. induction l as [|x l IH]; intros pre; simpl; [done|].
  rewrite (Hstep _ _ x) by (by apply list_lookup_middle).
  destruct (g (length pre) x) as [y|e]; simpl; [|done].
  replace (<[length pre := y]> (pre ++ x :: l)) with ((pre ++ [y]) ++ l).
  2: { rewrite <- app_assoc. simpl. symmetry.
       rewrite insert_app_r_alt by lia. by rewrite Nat.sub_diag. }
  specialize (IH (pre ++ [y])). rewrite length_app in IH. simpl in IH.
  rewrite Nat.add_1_r in IH. rewrite IH.
  destruct (imapM g (S (length pre)) l); simpl; [|done].
  by rewrite <- app_assoc.
Qed.

Lemma foldM_range_pointwise {X} (step : list X -> nat -> result (list X))
    (g : nat -> X -> result X) (l : list X) :
  (forall s i x, s !! i = Some x -> step s i = (do y <- g i x ;; Return (<[i := y]> s))) ->
  foldM step (range (length l)) l = imapM g 0 l.
Proof.
  intros Hstep. pose proof (foldM_pointwise step g Hstep l []) as H.
  simpl in H. unfold range. rewrite H. apply bind_Return_r.
Qed.

Lemma imapM_ext {X} (g h : nat -> X -> result X) (i : nat) (l : list X) :
  (forall j x, l !! j = Some x -> g (i + j) x = h (i + j) x) -> imapM g i l = imapM h i l.
Proof.
  revert i. induction l as [|x l IH]; intros i Hgh; simpl; [done|].
  specialize (Hgh 0 x eq_refl) as Hx. rewrite Nat.add_0_r in Hx. rewrite Hx.
  rewrite (IH (S i)); [done|].
  intros j y Hy. specialize (Hgh (S j) y Hy). by rewrite Nat.add_succ_r in Hgh.
Qed.

(** [imapM] on a list given by its elements. *)
Lemma imapM_tabulate {X} (g : nat -> X -> result X) (f f' : nat -> X) (s n : nat) :
  (forall j, s <= j < s + n -> g j (f j) = Return (f' j)) ->
  imapM g s (map f (seq s n)) = Return (map f' (seq s n)).
Proof.
  revert s. induction n as [|n IH]; intros s Hg; simpl; [done|].
  rewrite Hg by lia. simpl. rewrite IH; [done|].
  intros j Hj. apply Hg. lia.
Qed.

Lemma replicate_tabulate {X} (x : X) (n s : nat) : replicate n x = map (fun _ => x) (seq s n).
Proof. revert s. induction n as [|n IH]; intros s; simpl; [done | by rewrite <- IH]. Qed.

Lemma loop_j_cell (aik : Number) (b_k row : list Number) (j : nat) (old : Number) :
  row !! j = Some old ->
  loop_j aik b_k row j = (do s <- cell aik b_k j old ;; Return (<[j := s]> row)).
Proof.
  intros Hj. unfold loop_j, cell. rewrite (getitem_Some _ _ _ Hj). simpl.
  destruct (getitem b_k j); simpl; [|done].
  by destruct (py_mul aik a).
Qed.

Lemma loop_j_all (aik : Number) (b_k row : list Number) :
  foldM (loop_j aik b_k) (range (length row)) row = imapM (cell aik b_k) 0 row.
Proof. apply foldM_range_pointwise, loop_j_cell. Qed.

Lemma accumulate_row (b : list (list Number)) (b_cols i k : nat) (aik : Number)
    (res : list (list Number)) (row : list Number) :
  res !! i = Some row ->
  accumulate b b_cols i k aik res
  = (do row' <- (do b_k <- getitem b k ;; foldM (loop_j aik b_k) (range b_cols) row) ;;
     Return (<[i := row']> res)).
Proof.
  intros Hi. unfold accumulate. rewrite (getitem_Some _ _ _ Hi). simpl.
  by destruct (getitem b k).
Qed.

Lemma loop_k_row (a b : list (list Number)) (b_cols i k : nat)
    (res : list (list Number)) (row : list Number) :
  res !! i = Some row ->
  loop_k a b b_cols i res k
  = (do row' <- row_step true a b b_cols i row k ;; Return (<[i := row']> res)).
Proof.
  intros Hi. unfold loop_k, row_step.
  destruct (getitem a i) as [a_i|]; simpl; [|done].
  destruct (getitem a_i k) as [aik|]; simpl; [|done].
  destruct (py_eq_zero aik); simpl.
  - by rewrite list_insert_id.
  - by apply accumulate_row.
Qed.

Lemma naive_loop_k_row (a b : list (list Number)) (b_cols i k : nat)
    (res : list (list Number)) (row : list Number) :
  res !! i = Some row ->
  naive_loop_k a b b_cols i res k
  = (do row' <- row_step false a b b_cols i row k ;; Return (<[i := row']> res)).
Proof.
  intros Hi. unfold naive_loop_k, row_step.
  destruct (getitem a i) as [a_i|]; simpl; [|done].
  destruct (getitem a_i k) as [aik|]; simpl; [|done].
  by apply accumulate_row.
Qed.

(** A loop that rewrites [result[i]] at each turn is a loop on that row. *)
Lemma foldM_on_row {K} (step : list (list Number) -> K -> result (list (list Number)))
    (g : list Number -> K -> result (list Number)) (i : nat) :
  (forall res k row, res !! i = Some row ->
     step res k = (do row' <- g row k ;; Return (<[i := row']> res))) ->
  forall ks res row, res !! i = Some row ->
    foldM step ks res = (do row' <- foldM g ks row ;; Return (<[i := row']> res)).
Proof.
  intros Hstep. induction ks as [|k ks IH]; intros res row Hi; simpl.
  - by rewrite list_insert_id.
  - rewrite (Hstep _ _ _ Hi). destruct (g row k) as [row1|]; simpl; [|done].
    assert (i < length res) as Hlt by by eapply lookup_lt_Some.
    rewrite (IH (<[i := row1]> res) row1) by by apply list_lookup_insert_eq.
    destruct (foldM g ks row1); simpl; [|done].
    by rewrite list_insert_insert_eq.
Qed.

Lemma loop_i_row (a b : list (list Number)) (a_cols b_cols i : nat)
    (res : list (list Number)) (row : list Number) :
  res !! i = Some row ->
  loop_i a b a_cols b_cols res i
  = (do row' <- row_loop true a b a_cols b_cols i row ;; Return (<[i := row']> res)).
Proof.
  intros Hi. unfold loop_i, row_loop.
  apply (foldM_on_row _ (row_step true a b b_cols i)); [|done].
  intros. by apply loop_k_row.
Qed.

Lemma naive_loop_i_row (a b : list (list Number)) (a_cols b_cols i : nat)
    (res : list (list Number)) (row : list Number) :
  res !! i = Some row ->
  naive_loop_i a b a_cols b_cols res i
  = (do row' <- row_loop false a b a_cols b_cols i row ;; Return (<[i := row']> res)).
Proof.
  intros Hi. unfold naive_loop_i, row_loop.
  apply (foldM_on_row _ (row_step false a b b_cols i)); [|done].
  intros. by apply naive_loop_k_row.
Qed.

(** The product, row by row: row [i] of the result is the loop over [k]
    run on a row of zeros. *)
Lemma multiply_validated_rows (a b : list (list Number)) (r1 n c2 : nat) :
  well_formed a r1 n -> well_formed b n c2 ->
  multiply_validated a b
  = imapM (fun i row => row_loop true a b n c2 i row) 0 (replicate r1 (replicate c2 (NInt 0))).
Proof.
  intros Ha Hb. rewrite (multiply_validated_shapes _ _ _ _ _ _ Ha Hb).
  destruct (decide (n ≠ n)); [done|].
  rewrite <- (foldM_range_pointwise (loop_i a b n c2)).
  - by rewrite length_replicate.
  - intros. by apply loop_i_row.
Qed.

Lemma naive_multiply_validated_rows (a b : list (list Number)) (r1 n c2 : nat) :
  well_formed a r1 n -> well_formed b n c2 ->
  naive_multiply_validated a b
  = imapM (fun i row => row_loop false a b n c2 i row) 0 (replicate r1 (replicate c2 (NInt 0))).
Proof.
  intros Ha Hb.
  destruct (well_formed_first_row _ _ _ Ha) as (a0 & Ha0 & Hc1).
  destruct (well_formed_first_row _ _ _ Hb) as (b0 & Hb0 & Hc2).
  unfold naive_multiply_validated.
  rewrite (getitem_Some _ _ _ Ha0), (getitem_Some _ _ _ Hb0). simpl.
  destruct Ha as ((Hr1 & _) & _), Hb as ((Hr2 & _) & _).
  rewrite Hr1, Hr2, Hc1, Hc2.
  destruct (decide (n ≠ n)); [done|].
  rewrite <- (foldM_range_pointwise (naive_loop_i a b n c2)).
  - by rewrite length_replicate.
  - intros. by apply naive_loop_i_row.
Qed.

(** ** Integer matrices *)

Lemma foldM_range_chain {S} (step : S -> nat -> result S) (f : nat -> S) (n : nat) :
  (forall k, k < n -> step (f k) k = Return (f (Datatypes.S k))) ->
  foldM step (range n) (f 0) = Return (f n).
Proof.
  unfold range. induction n as [|n IH]; intros Hstep; [done|].
  rewrite seq_S, foldM_app, IH by (intros; apply Hstep; lia). simpl.
  by rewrite Hstep by lia.
Qed.

Lemma int_matrix_numbers (M : list (list Z)) : int_matrix M = obj_of_matrix (numbers_of M).
Proof.
  unfold int_matrix, obj_of_matrix, numbers_of. f_equal.
  rewrite map_map. apply map_ext. intros r. f_equal. by rewrite map_map.
Qed.

Lemma numbers_of_shape (M : list (list Z)) (r c : nat) :
  has_shape M r c -> has_shape (numbers_of M) r c.
Proof.
  intros [Hr Hc]. split; unfold numbers_of.
  - by rewrite length_map.
  - apply Forall_map. eapply Forall_impl; [exact Hc|].
    intros row Hrow. simpl. by rewrite length_map.
Qed.

Lemma numbers_of_well_formed (M : list (list Z)) (r c : nat) :
  well_formed M r c -> well_formed (numbers_of M) r c.
Proof. intros (H & ? & ?). split; [by apply numbers_of_shape | done]. Qed.

Lemma validate_int_matrix (name : string) (M : list (list Z)) (r c : nat) :
  well_formed M r c -> _validate_matrix (int_matrix M) name = Return (numbers_of M).
Proof.
  intros H. rewrite int_matrix_numbers.
  eapply validate_well_formed, numbers_of_well_formed, H.
Qed.

Lemma shape_row {A} (M : list (list A)) (r c i : nat) :
  has_shape M r c -> i < r -> exists row, M !! i = Some row ∧ length row = c.
Proof.
  intros [Hr Hc] Hi. destruct (lookup_lt_is_Some_2 M i) as (row & Hrow); [lia|].
  exists row. split; [done|]. by eapply Forall_lookup in Hc.
Qed.

Lemma getitem_numbers (M : list (list Z)) (r c i k : nat) :
  has_shape M r c -> i < r -> k < c ->
  exists row, getitem (numbers_of M) i = Return (map NInt row)
    ∧ length row = c
    ∧ getitem (map NInt row) k = Return (NInt (entry M i k)).
Proof.
  intros HM Hi Hk. destruct (shape_row M r c i HM Hi) as (row & Hrow & Hlen).
  exists row. split; [|split; [done|]].
  - apply getitem_Some. unfold numbers_of. by rewrite list_lookup_fmap, Hrow.
  - destruct (lookup_lt_is_Some_2 row k) as (x & Hx); [lia|].
    apply getitem_Some. rewrite list_lookup_fmap, Hx. simpl.
    unfold entry. rewrite Hrow. simpl. by rewrite Hx.
Qed.

(** One turn of the loop over [k] adds the [k]-th products, exactly, with
    or without the zero test. *)
Lemma int_row_step (skip : bool) (A B : list (list Z)) (m n p i k : nat) :
  has_shape A m n -> has_shape B n p -> i < m -> k < n ->
  row_step skip (numbers_of A) (numbers_of B) p i (partial_row A B i p k) k
  = Return (partial_row A B i p (S k)).
Proof.
  intros HA HB Hi Hk. unfold row_step.
  destruct (getitem_numbers A m n i k HA Hi Hk) as (A_i & -> & _ & HAik). simpl.
  rewrite HAik. simpl.
  destruct (skip && (entry A i k =? 0)%Z) eqn:Hskip.
  - apply andb_true_iff in Hskip as [_ Hz%Z.eqb_eq].
    f_equal. apply map_ext. intros j. f_equal.
    unfold matprod_entry. simpl. rewrite Hz. lia.
  - destruct (shape_row B n p k HB Hk) as (B_k & HBk & HlenB).
    rewrite (getitem_Some (numbers_of B) k (map NInt B_k))
      by (unfold numbers_of; by rewrite list_lookup_fmap, HBk).
    simpl.
    replace (range p) with (range (length (partial_row A B i p k)))
      by (unfold partial_row; by rewrite length_map, length_seq).
    rewrite loop_j_all. unfold partial_row.
    apply imapM_tabulate. intros j Hj. unfold cell.
    destruct (lookup_lt_is_Some_2 B_k j) as (y & Hy); [lia|].
    rewrite (getitem_Some (map NInt B_k) j (NInt y)) by (by rewrite list_lookup_fmap, Hy).
    simpl. do 2 f_equal. unfold matprod_entry. simpl.
    assert (entry B k j = y) as ->; [|done].
    unfold entry. rewrite HBk. simpl. by rewrite Hy.
Qed.

Lemma int_row_loop (skip : bool) (A B : list (list Z)) (m n p i : nat) :
  has_shape A m n -> has_shape B n p -> i < m ->
  row_loop skip (numbers_of A) (numbers_of B) n p i (replicate p (NInt 0))
  = Return (partial_row A B i p n).
Proof.
  intros HA HB Hi. unfold row_loop.
  replace (replicate p (NInt 0)) with (partial_row A B i p 0)
    by (unfold partial_row; symmetry; apply replicate_tabulate).
  apply (foldM_range_chain _ (partial_row A B i p)).
  intros k Hk. by eapply int_row_step.
Qed.

Lemma int_rows (skip : bool) (A B : list (list Z)) (m n p : nat) :
  has_shape A m n -> has_shape B n p ->
  imapM (fun i row => row_loop skip (numbers_of A) (numbers_of B) n p i row) 0
    (replicate m (replicate p (NInt 0)))
  = Return (numbers_of (matprod A B m n p)).
Proof.
  intros HA HB. rewrite (replicate_tabulate _ m 0).
  replace (numbers_of (matprod A B m n p))
    with (map (fun i => partial_row A B i p n) (seq 0 m)).
  2: { unfold numbers_of, matprod, partial_row. rewrite map_map.
       apply map_ext. intros i. by rewrite map_map. }
  apply imapM_tabulate. intros i Hi. simpl.
  apply (int_row_loop skip A B m n p i HA HB). lia.
Qed.

(** On integer matrices the product is computed exactly, in integers. *)
Lemma int_multiply_validated (A B : list (list Z)) (m n p : nat) :
  well_formed A m n -> well_formed B n p ->
  multiply_validated (numbers_of A) (numbers_of B) = Return (numbers_of (matprod A B m n p)).
Proof.
  intros HA HB.
  rewrite (multiply_validated_rows _ _ m n p) by by apply numbers_of_well_formed.
  apply int_rows; [apply HA | apply HB].
Qed.

Lemma int_naive_multiply_validated (A B : list (list Z)) (m n p : nat) :
  well_formed A m n -> well_formed B n p ->
  naive_multiply_validated (numbers_of A) (numbers_of B)
  = Return (numbers_of (matprod A B m n p)).
Proof.
  intros HA HB.
  rewrite (naive_multiply_validated_rows _ _ m n p) by by apply numbers_of_well_formed.
  apply int_rows; [apply HA | apply HB].
Qed.

Lemma int_multiply_matrices (A B : list (list Z)) (m n p : nat) :
  well_formed A m n -> well_formed B n p ->
  multiply_matrices (int_matrix A) (int_matrix B) = Return (numbers_of (matprod A B m n p)).
Proof.
  intros HA HB. unfold multiply_matrices.
  rewrite (validate_int_matrix "left" A m n HA), (validate_int_matrix "right" B n p HB).
  simpl. by apply int_multiply_validated.
Qed.

Lemma matprod_shape (A B : list (list Z)) (m n p : nat) : has_shape (matprod A B m n p) m p.
Proof.
  split; unfold matprod.
  - by rewrite length_map, length_seq.
  - apply Forall_map, Forall_forall. intros i _. simpl. by rewrite length_map, length_seq.
Qed.

Lemma matprod_lookup (A B : list (list Z)) (m n p i j : nat) :
  i < m -> j < p ->
  matprod A B m n p !! i ≫= (.!! j) = Some (matprod_entry A B n i j).
Proof.
  intros Hi Hj. unfold matprod.
  rewrite list_lookup_fmap, lookup_seq_lt by done. simpl.
  by rewrite list_lookup_fmap, lookup_seq_lt.
Qed.

(** C1. For well-formed integer matrices [A] ([m] by [n]) and [B] ([n] by
    [p]), [multiply_matrices] returns a matrix with [m] rows of [p] elements
    whose element [(i, j)] is the sum over [k < n] of [A[i][k] * B[k][j]]. *)
Theorem multiply_is_matrix_product (A B : list (list Z)) (m n p : nat) :
  well_formed A m n -> well_formed B n p ->
  exists C : list (list Z),
    multiply_matrices (int_matrix A) (int_matrix B) = Return (numbers_of C)
    ∧ has_shape C m p
    ∧ forall i j, i < m -> j < p ->
        C !! i ≫= (.!! j) = Some (big_sum (fun k => entry A i k * entry B k j)%Z n).
Proof.
  intros HA HB. exists (matprod A B m n p).
  split; [by apply int_multiply_matrices|].
  split; [apply matprod_shape|].
  intros i j Hi Hj. by apply matprod_lookup.
Qed.

Lemma multiply_is_matrix_product_witness :
  exists C : list (list Z),
    multiply_matrices (int_matrix [[1; 2; 3]; [4; 5; 6]]%Z)
                      (int_matrix [[7; 8]; [9; 10]; [11; 12]]%Z) = Return (numbers_of C)
    ∧ has_shape C 2 2
    ∧ forall i j, i < 2 -> j < 2 ->
        C !! i ≫= (.!! j)
        = Some (big_sum (fun k => entry [[1; 2; 3]; [4; 5; 6]] i k
                                  * entry [[7; 8]; [9; 10]; [11; 12]] k j)%Z 3).
Proof.
  apply (multiply_is_matrix_product [[1; 2; 3]; [4; 5; 6]]%Z
           [[7; 8]; [9; 10]; [11; 12]]%Z 2 3 2).
  - split; [split; [reflexivity | repeat constructor] | lia].
  - split; [split; [reflexivity | repeat constructor] | lia].
Defined.

Lemma Forall_numbers_of_int (M : list (list Z)) :
  Forall (Forall (fun x => is_int x = true)) (numbers_of M).
Proof.
  unfold numbers_of. apply Forall_map, Forall_forall. intros row _.
  simpl. apply Forall_map, Forall_forall. by intros.
Qed.

Lemma loop_i_partial (A B : list (list Z)) (m n p i k : nat) (res : list (list Number)) :
  has_shape A m n -> has_shape B n p -> i < m -> k <= n ->
  res !! i = Some (replicate p (NInt 0)) ->
  loop_i (numbers_of A) (numbers_of B) k p res i = Return (<[i := partial_row A B i p k]> res).
Proof.
  intros HA HB Hi Hk Hres. rewrite (loop_i_row _ _ _ _ _ _ _ Hres).
  unfold row_loop.
  replace (replicate p (NInt 0)) with (partial_row A B i p 0)
    by (unfold partial_row; symmetry; apply replicate_tabulate).
  rewrite (foldM_range_chain _ (partial_row A B i p)); [done|].
  intros k' Hk'. eapply int_row_step; eauto. lia.
Qed.

(** C10. On well-formed integer matrices the arithmetic is exact integer
    arithmetic: the call returns, every element of the result is an int,
    equal to the sum of the products in [Z], whatever the size of the
    numbers; and after any number [k] of turns of the loop over the shared
    index, row [i] of the result holds the exact integer sums over the
    first [k] indexes. *)
Theorem integer_product_exact (A B : list (list Z)) (m n p : nat) :
  well_formed A m n -> well_formed B n p ->
  (exists res,
     multiply_matrices (int_matrix A) (int_matrix B) = Return res
     ∧ Forall (Forall (fun x => is_int x = true)) res
     ∧ forall i j, i < m -> j < p ->
         res !! i ≫= (.!! j) = Some (NInt (matprod_entry A B n i j)))
  ∧ (forall i k, i < m -> k <= n ->
       loop_i (numbers_of A) (numbers_of B) k p (replicate m (replicate p (NInt 0))) i
       = Return (<[i := map (fun j => NInt (matprod_entry A B k i j)) (seq 0 p)]>
                   (replicate m (replicate p (NInt 0))))).
Proof.
  intros HA HB. split.
  - exists (numbers_of (matprod A B m n p)).
    split; [by apply int_multiply_matrices|].
    split; [apply Forall_numbers_of_int|].
    intros i j Hi Hj. unfold numbers_of. rewrite list_lookup_fmap.
    pose proof (matprod_lookup A B m n p i j Hi Hj) as Hl.
    destruct (matprod A B m n p !! i) as [row|]; [|done]. simpl in *.
    by rewrite list_lookup_fmap, Hl.
  - intros i k Hi Hk.
    apply (loop_i_partial A B m n p i k); [apply HA | apply HB | done | done |].
    by apply lookup_replicate_2.
Qed.

Lemma integer_product_exact_witness :
  exists res,
    multiply_matrices (int_matrix [[10 ^ 20; 0]]%Z) (int_matrix [[10 ^ 20 + 1]; [7]]%Z)
    = Return res
    ∧ Forall (Forall (fun x => is_int x = true)) res
    ∧ forall i j, i < 1 -> j < 1 ->
        res !! i ≫= (.!! j)
        = Some (NInt (matprod_entry [[10 ^ 20; 0]]%Z [[10 ^ 20 + 1]; [7]]%Z 2 i j)).
Proof.
  apply (integer_product_exact [[10 ^ 20; 0]]%Z [[10 ^ 20 + 1]; [7]]%Z 1 2 1).
  - split; [split; [reflexivity | repeat constructor] | lia].
  - split; [split; [reflexivity | repeat constructor] | lia].
Defined.

Example large_integers_exact :
  multiply_matrices (int_matrix [[10 ^ 20; 0]]%Z) (int_matrix [[10 ^ 20 + 1]; [7]]%Z)
  = Return [[NInt 10000000000000000000100000000000000000000]].
Proof. vm_compute. reflexivity. Qed.

(** ** The zero test *)

Lemma set_entry_lookup_ne (b : list (list Number)) (k j k' : nat) (v : Number) :
  k ≠ k' -> set_entry b k j v !! k' = b !! k'.
Proof.
  intros Hne. unfold set_entry. destruct (b !! k); [|done].
  by apply list_lookup_insert_ne.
Qed.

Lemma set_entry_shape (b : list (list Number)) (r c k j : nat) (v : Number) :
  has_shape b r c -> has_shape (set_entry b k j v) r c.
Proof.
  intros [Hr Hc]. unfold set_entry. destruct (b !! k) as [row|] eqn:Hk; [|done].
  split; [by rewrite length_insert|].
  apply Forall_insert; [done|]. rewrite length_insert.
  by eapply Forall_lookup in Hc.
Qed.

Lemma set_entry_well_formed (b : list (list Number)) (r c k j : nat) (v : Number) :
  well_formed b r c -> well_formed (set_entry b k j v) r c.
Proof. intros (H & ? & ?). split; [by apply set_entry_shape | done]. Qed.

(** At a zero of [a[i][k]] the turn [k] gives the state back as it is. *)
Lemma loop_k_zero (a b : list (list Number)) (b_cols i k : nat) (a_i : list Number)
    (aik : Number) (res : list (list Number)) :
  a !! i = Some a_i -> a_i !! k = Some aik -> py_eq_zero aik = true ->
  loop_k a b b_cols i res k = Return res.
Proof.
  intros Hi Hk Hz. unfold loop_k.
  rewrite (getitem_Some _ _ _ Hi). simpl. rewrite (getitem_Some _ _ _ Hk). simpl.
  by rewrite Hz.
Qed.

(** Row [k] of the right matrix is read at turn [k] only. *)
Lemma loop_k_other_row (a b b' : list (list Number)) (b_cols i k : nat)
    (res : list (list Number)) :
  b' !! k = b !! k -> loop_k a b' b_cols i res k = loop_k a b b_cols i res k.
Proof. intros Hb. unfold loop_k, accumulate, getitem. by rewrite Hb. Qed.

Lemma loop_i_zero_entry (a b : list (list Number)) (a_cols b_cols i k j : nat)
    (a_i : list Number) (aik v : Number) (res : list (list Number)) :
  a !! i = Some a_i -> a_i !! k = Some aik -> py_eq_zero aik = true ->
  loop_i a (set_entry b k j v) a_cols b_cols res i = loop_i a b a_cols b_cols res i.
Proof.
  intros Hi Hk Hz. unfold loop_i. apply foldM_ext_in. intros res' k' _.
  destruct (decide (k = k')) as [<-|Hne].
  - by rewrite !(loop_k_zero a _ b_cols i k a_i aik).
  - by apply loop_k_other_row, set_entry_lookup_ne.
Qed.

Lemma imapM_lookup {X} (g : nat -> X -> result X) (s : nat) (l l' : list X) (i : nat) (x : X) :
  imapM g s l = Return l' -> l !! i = Some x ->
  exists y, l' !! i = Some y ∧ g (s + i) x = Return y.
Proof.
  revert s l' i. induction l as [|z l IH]; intros s l' i H Hi; [done|].
  simpl in H. apply bind_Return in H as (y & Hy & H).
  apply bind_Return in H as (ys & Hys & [= <-]).
  destruct i as [|i]; simpl in *.
  - injection Hi as ->. exists y. by rewrite Nat.add_0_r.
  - destruct (IH _ _ _ Hys Hi) as (y' & Hy' & Hg). exists y'.
    split; [done|]. by rewrite Nat.add_succ_r.
Qed.

(** Row [i] of the result is what the turn [i] of the outer loop makes of
    a row of zeros. *)
Lemma multiply_validated_row (a b : list (list Number)) (m n p i : nat)
    (res : list (list Number)) :
  well_formed a m n -> well_formed b n p -> i < m ->
  multiply_validated a b = Return res ->
  exists row, res !! i = Some row
    ∧ loop_i a b n p (replicate m (replicate p (NInt 0))) i
      = Return (<[i := row]> (replicate m (replicate p (NInt 0)))).
Proof.
  intros Ha Hb Hi Hres. rewrite (multiply_validated_rows _ _ _ _ _ Ha Hb) in Hres.
  assert (replicate m (replicate p (NInt 0)) !! i = Some (replicate p (NInt 0))) as Hrow
    by by apply lookup_replicate_2.
  destruct (imapM_lookup _ _ _ _ _ _ Hres Hrow) as (row & Hrow' & Hloop).
  exists row. split; [done|]. simpl in Hloop.
  by rewrite (loop_i_row _ _ _ _ _ _ _ Hrow), Hloop.
Qed.

Lemma insert_replicate_inj {X} (x y z : X) (m i : nat) :
  i < m -> <[i := x]> (replicate m z) = <[i := y]> (replicate m z) -> x = y.
Proof.
  intros Hi Heq.
  assert (<[i := x]> (replicate m z) !! i = Some x) as Hx
    by (apply list_lookup_insert_eq; by rewrite length_replicate).
  rewrite Heq, list_lookup_insert_eq in Hx by by rewrite length_replicate.
  congruence.
Qed.

Lemma SFmul_nan_r (f : spec_float) : SFmul prec emax f S754_nan = S754_nan.
Proof. by destruct f. Qed.

Lemma SFadd_nan_r (f : spec_float) : SFadd prec emax f S754_nan = S754_nan.
Proof. by destruct f. Qed.

Lemma py_mul_nan (x y : Number) : py_mul x (NFloat S754_nan) = Return y -> y = NFloat S754_nan.
Proof.
  destruct x as [z|f]; simpl.
  - intros (f & _ & [= <-])%bind_Return. by rewrite SFmul_nan_r.
  - intros [= <-]. by rewrite SFmul_nan_r.
Qed.

Lemma py_add_nan (x y : Number) : py_add x (NFloat S754_nan) = Return y -> y = NFloat S754_nan.
Proof.
  destruct x as [z|f]; simpl.
  - intros (f & _ & [= <-])%bind_Return. by rewrite SFadd_nan_r.
  - intros [= <-]. by rewrite SFadd_nan_r.
Qed.

(** Without the zero test, a NaN at [b[k][j]] ends up at [result[i][j]]. *)
Lemma naive_loop_k_nan (a b : list (list Number)) (p i k j : nat)
    (res res' : list (list Number)) (row : list Number) :
  b !! k ≫= (.!! j) = Some (NFloat S754_nan) ->
  res !! i = Some row -> length row = p -> j < p ->
  naive_loop_k a b p i res k = Return res' ->
  res' !! i ≫= (.!! j) = Some (NFloat S754_nan).
Proof.
  intros Hnan Hrow Hlen Hj Hres.
  rewrite (naive_loop_k_row _ _ _ _ _ _ _ Hrow) in Hres.
  apply bind_Return in Hres as (row' & Hstep & [= <-]).
  rewrite list_lookup_insert_eq by by eapply lookup_lt_Some. simpl.
  unfold row_step in Hstep.
  apply bind_Return in Hstep as (a_i & _ & Hstep).
  apply bind_Return in Hstep as (aik & _ & Hstep). simpl in Hstep.
  apply bind_Return in Hstep as (b_k & Hb_k & Hstep).
  rewrite <- Hlen, loop_j_all in Hstep.
  destruct (lookup_lt_is_Some_2 row j) as (old & Hold); [lia|].
  destruct (imapM_lookup _ _ _ _ _ _ Hstep Hold) as (y & -> & Hcell).
  f_equal. simpl in Hcell. unfold cell in Hcell.
  unfold getitem in Hb_k. destruct (b !! k) as [b_k'|]; [|done].
  injection Hb_k as ->. simpl in Hnan. rewrite (getitem_Some _ _ _ Hnan) in Hcell.
  simpl in Hcell. apply bind_Return in Hcell as (q & ->%py_mul_nan & Hadd).
  by apply py_add_nan in Hadd.
Qed.

(** C8. Where [left[i][k]] equals zero, the turn [(i, k)] of the loops
    multiplies and accumulates nothing: it hands the result back untouched;
    the whole turn [i] of the outer loop is the same whatever value [v]
    (NaN included) stands at [right[k][j]]; and so is row [i] of the
    product.  The loop without the zero test behaves otherwise: its turn
    [(i, k)] leaves a NaN at [result[i][j]] when [right[k][j]] is NaN. *)
Theorem zero_entry_contributes_nothing (a b : list (list Number)) (m n p i k : nat)
    (a_i : list Number) (aik : Number) :
  well_formed a m n -> well_formed b n p ->
  a !! i = Some a_i -> a_i !! k = Some aik -> py_eq_zero aik = true ->
  (forall res, loop_k a b p i res k = Return res)
  ∧ (forall j v res, loop_i a (set_entry b k j v) n p res i = loop_i a b n p res i)
  ∧ (forall j v res res',
       multiply_matrices (obj_of_matrix a) (obj_of_matrix b) = Return res ->
       multiply_matrices (obj_of_matrix a) (obj_of_matrix (set_entry b k j v)) = Return res' ->
       res' !! i = res !! i)
  ∧ (forall j res res' row,
       b !! k ≫= (.!! j) = Some (NFloat S754_nan) ->
       res !! i = Some row -> length row = p -> j < p ->
       naive_loop_k a b p i res k = Return res' ->
       res' !! i ≫= (.!! j) = Some (NFloat S754_nan)).
Proof.
  intros Ha Hb Hi Hk Hz.
  split; [intros res; by eapply loop_k_zero|].
  split; [intros j v res; by eapply loop_i_zero_entry|].
  split; [|intros j res res' row; by eapply naive_loop_k_nan].
  intros j v res res'. unfold multiply_matrices.
  pose proof (set_entry_well_formed b n p k j v Hb) as Hb'.
  rewrite (validate_well_formed "left" a m n Ha), (validate_well_formed "right" b n p Hb),
    (validate_well_formed "right" _ n p Hb').
  simpl. intros Hres Hres'.
  assert (i < m) as Hlt.
  { destruct Ha as ((<- & _) & _). by eapply lookup_lt_Some. }
  destruct (multiply_validated_row _ _ _ _ _ _ _ Ha Hb Hlt Hres) as (row & -> & Hrow).
  destruct (multiply_validated_row _ _ _ _ _ _ _ Ha Hb' Hlt Hres') as (row' & -> & Hrow').
  rewrite (loop_i_zero_entry a b n p i k j a_i aik v) in Hrow' by done.
  rewrite Hrow in Hrow'. injection Hrow' as Heq.
  f_equal. symmetry. by eapply insert_replicate_inj.
Qed.

Lemma zero_entry_contributes_nothing_witness :
  multiply_matrices (obj_of_matrix [[NInt 0; NInt 2]]) (obj_of_matrix [[NInt 1]; [NInt 3]])
    = Return [[NInt 6]]
  ∧ multiply_matrices (obj_of_matrix [[NInt 0; NInt 2]])
      (obj_of_matrix (set_entry [[NInt 1]; [NInt 3]] 0 0 (NFloat S754_nan)))
    = Return [[NInt 6]]
  ∧ [[NInt 6]] !! 0 = [[NInt 6]] !! 0.
Proof.
  split; [reflexivity|]. split; [reflexivity|].
  refine (proj1 (proj2 (proj2 (zero_entry_contributes_nothing
            [[NInt 0; NInt 2]] [[NInt 1]; [NInt 3]] 1 2 1 0 0 [NInt 0; NInt 2] (NInt 0)
            _ _ _ _ _))) 0 (NFloat S754_nan) [[NInt 6]] [[NInt 6]] _ _).
  - split; [split; [reflexivity | repeat constructor] | lia].
  - split; [split; [reflexivity | repeat constructor] | lia].
  - reflexivity.
  - reflexivity.
  - reflexivity.
  - vm_compute. reflexivity.
  - vm_compute. reflexivity.
Defined.

(** ** The demonstration *)

(** C7. Started without positional arguments ([argv] holds the program name
    only), [main] multiplies the two demonstration matrices, whose product
    is [[58, 64], [139, 154]], prints it as the two lines "58 64" and
    "139 154", and returns 0. *)
Theorem main_without_arguments (json_loads : string -> decoded) (argv : list string) :
  length argv = 1 ->
  multiply_matrices (int_matrix [[1; 2; 3]; [4; 5; 6]]%Z)
                    (int_matrix [[7; 8]; [9; 10]; [11; 12]]%Z)
  = Return (numbers_of [[58; 64]; [139; 154]]%Z)
  ∧ main json_loads argv ""
    = (Return 0%Z, "58 64" +:+ newline +:+ "139 154" +:+ newline).
Proof.
  intros Hlen. split; [vm_compute; reflexivity|].
  destruct argv as [|prog [|]]; try discriminate.
  vm_compute. reflexivity.
Qed.

Lemma main_without_arguments_witness :
  length ["main.py"] = 1
  ∧ main (fun _ => JSONDecodeError "no JSON") ["main.py"] ""
    = (Return 0%Z, "58 64" +:+ newline +:+ "139 154" +:+ newline).
Proof.
  split; [reflexivity|].
  apply (main_without_arguments (fun _ => JSONDecodeError "no JSON") ["main.py"]). reflexivity.
Defined.

(** ** The zero test against the loop without it *)

Lemma float_zero_test (f : spec_float) :
  py_eq_zero (NFloat f) = true <-> exists s, f = S754_zero s.
Proof.
  split.
  - destruct f as [s|[]| |[] ? ?]; simpl; try discriminate. by exists s.
  - by intros (s & ->).
Qed.

Lemma py_add_start (q : spec_float) :
  py_add (NInt 0) (NFloat q) = Return (NFloat (SFadd prec emax (S754_zero false) q)).
Proof. reflexivity. Qed.

Lemma SFadd_zero_same (s s' : bool) (q : spec_float) :
  same_number (NFloat (SFadd prec emax (S754_zero s) q))
              (NFloat (SFadd prec emax (S754_zero s') q)).
Proof. destruct q as [t| | |]; destruct s, s'; try destruct t; simpl; constructor. Qed.

Lemma SFadd_same_zero (f : spec_float) (t : bool) :
  same_number (NFloat f) (NFloat (SFadd prec emax f (S754_zero t))).
Proof. destruct f as [s| | |]; try destruct s; destruct t; simpl; constructor. Qed.

Lemma add_same (x x' : Number) (q : spec_float) :
  same_number x x' ->
  exists y y', py_add x (NFloat q) = Return y ∧ py_add x' (NFloat q) = Return y'
    ∧ same_number y y'.
Proof.
  intros H. destruct H as [|s|f|s s']; rewrite ?py_add_start;
    do 2 eexists; (split; [reflexivity|]); (split; [reflexivity|]);
    first [apply SFadd_zero_same | constructor].
Qed.

Lemma add_zero_same (x x' : Number) (t : bool) :
  same_number x x' ->
  exists y', py_add x' (NFloat (S754_zero t)) = Return y' ∧ same_number x y'.
Proof.
  intros H. destruct H as [|s|f|s s']; rewrite ?py_add_start;
    eexists; (split; [reflexivity|]).
  - destruct t; constructor.
  - destruct s, t; constructor.
  - apply SFadd_same_zero.
  - destruct s', t; constructor.
Qed.

Lemma imapM_Return_id {X} (s : nat) (l : list X) : imapM (fun _ x => Return x) s l = Return l.
Proof. revert s. induction l as [|x l IH]; intros s; simpl; [done | by rewrite IH]. Qed.

Lemma imapM_length {X} (g : nat -> X -> result X) (s : nat) (l l' : list X) :
  imapM g s l = Return l' -> length l' = length l.
Proof.
  revert s l'. induction l as [|x l IH]; intros s l' H; simpl in H.
  - by injection H as <-.
  - apply bind_Return in H as (y & _ & H).
    apply bind_Return in H as (ys & Hys & [= <-]). simpl. f_equal. by eapply IH.
Qed.

Lemma getitem_Return {A} (l : list A) (i : nat) (x : A) :
  getitem l i = Return x -> l !! i = Some x.
Proof. unfold getitem. destruct (l !! i); [by intros [= ->] | done]. Qed.

Lemma loop_k_no_zero (a b : list (list Number)) (b_cols i k : nat) (res : list (list Number)) :
  Forall (Forall (fun x => py_eq_zero x = false)) a ->
  loop_k a b b_cols i res k = naive_loop_k a b b_cols i res k.
Proof.
  intros Ha. unfold loop_k, naive_loop_k.
  destruct (getitem a i) as [a_i|] eqn:Ha_i; [|done]. simpl.
  destruct (getitem a_i k) as [aik|] eqn:Haik; [|done]. simpl.
  apply getitem_Return in Ha_i, Haik.
  eapply Forall_lookup in Ha; [|exact Ha_i].
  eapply Forall_lookup in Ha; [|exact Haik]. simpl in Ha. by rewrite Ha.
Qed.

Lemma same_outcome_impl {A} (R R' : A -> A -> Prop) (r r' : result A) :
  (forall x x', R x x' -> R' x x') -> same_outcome R r r' -> same_outcome R' r r'.
Proof. intros HR. destruct r, r'; simpl; auto. Qed.

Lemma rel_from_length {X} (R : nat -> X -> X -> Prop) (s : nat) (l l' : list X) :
  rel_from R s l l' -> length l = length l'.
Proof.
  revert s l'. induction l as [|x l IH]; intros s [|x' l']; simpl; try done.
  intros [_ H]. f_equal. by eapply IH.
Qed.

Lemma rel_from_replicate {X} (R : nat -> X -> X -> Prop) (s n : nat) (x x' : X) :
  (forall i, s <= i < s + n -> R i x x') -> rel_from R s (replicate n x) (replicate n x').
Proof.
  revert s. induction n as [|n IH]; intros s H; simpl; [done|].
  split; [apply H; lia|]. apply IH. intros i Hi. apply H. lia.
Qed.

Lemma rel_from_Forall2 {X} (R : nat -> X -> X -> Prop) (R' : X -> X -> Prop) (s : nat)
    (l l' : list X) :
  (forall i x x', R i x x' -> R' x x') -> rel_from R s l l' -> Forall2 R' l l'.
Proof.
  intros HR. revert s l'. induction l as [|x l IH]; intros s [|x' l']; simpl; try done.
  intros [Hx Hl]. constructor; [by eapply HR | by eapply IH].
Qed.

(** Two updates of every element have the same outcome when they have it
    element by element. *)
Lemma imapM_outcome {X} (R : nat -> X -> X -> Prop) (g g' : nat -> X -> result X)
    (l l' : list X) (s : nat) :
  rel_from R s l l' ->
  (forall j x x', l !! j = Some x -> R (s + j) x x' ->
     same_outcome (R (s + j)) (g (s + j) x) (g' (s + j) x')) ->
  same_outcome (rel_from R s) (imapM g s l) (imapM g' s l').
Proof.
  revert s l'. induction l as [|x l IH]; intros s [|x' l']; simpl; try done.
  intros [Hx Hl] Hg.
  pose proof (Hg 0 x x' eq_refl) as H0. rewrite Nat.add_0_r in H0. specialize (H0 Hx).
  destruct (g s x) as [y|e], (g' s x') as [y'|e']; simpl in *; try done.
  specialize (IH (S s) l' Hl).
  assert (same_outcome (rel_from R (S s)) (imapM g (S s) l) (imapM g' (S s) l')) as Hrest.
  { apply IH. intros j z z' Hz. specialize (Hg (S j) z z' Hz).
    by rewrite Nat.add_succ_r in Hg. }
  destruct (imapM g (S s) l), (imapM g' (S s) l'); simpl in *; done.
Qed.

Lemma foldM_outcome {S K} (Inv : S -> S -> Prop) (f f' : S -> K -> result S) (ks : list K) :
  (forall k s s', k ∈ ks -> Inv s s' -> same_outcome Inv (f s k) (f' s' k)) ->
  forall s s', Inv s s' -> same_outcome Inv (foldM f ks s) (foldM f' ks s').
Proof.
  induction ks as [|k ks IH]; intros Hstep s s' Hs; simpl; [done|].
  pose proof (Hstep k s s' ltac:(constructor) Hs) as Hk.
  destruct (f s k) as [t|e], (f' s' k) as [t'|e']; simpl in *; try done.
  apply IH; [|done]. intros k' u u' Hk'. apply Hstep. by constructor.
Qed.

(** *** One cell at one turn *)

Lemma zero_number (x : Number) :
  py_eq_zero x = true -> x = NInt 0 ∨ exists s, x = NFloat (S754_zero s).
Proof.
  destruct x as [z|f].
  - simpl. intros ->%Z.eqb_eq. by left.
  - intros (s & ->)%float_zero_test. right. by exists s.
Qed.

Lemma py_mul_float (x y q : Number) :
  is_float x || is_float y = true -> py_mul x y = Return q -> exists g, q = NFloat g.
Proof.
  destruct x, y; simpl; try discriminate; intros _ H;
    try apply bind_Return in H as (? & _ & H); injection H as <-; by eexists.
Qed.

Lemma SFmul_zero_finite (s : bool) (g : spec_float) :
  finite_spec g = true -> exists t, SFmul prec emax (S754_zero s) g = S754_zero t.
Proof. destruct g; try discriminate; intros _; by eexists. Qed.

Lemma float_of_int_0 : float_of_int 0 = Return (S754_zero false).
Proof. reflexivity. Qed.

(** The product of a zero of the left matrix with what it meets
    harmlessly is the int 0 or a float zero. *)
Lemma mul_zero_harmless (x y : Number) :
  py_eq_zero x = true -> harmless x y = true ->
  py_mul x y = Return (NInt 0) ∨ exists t, py_mul x y = Return (NFloat (S754_zero t)).
Proof.
  intros [-> | (s & ->)]%zero_number; unfold harmless; destruct y as [c|g];
    cbn [is_int andb orb finite_number].
  - intros _. by left.
  - intros Hg. right. destruct (SFmul_zero_finite false g Hg) as (t & Ht).
    exists t. unfold py_mul. rewrite float_of_int_0. cbn [bind]. by rewrite Ht.
  - destruct (float_of_int c) as [fc|] eqn:Hc; [|discriminate]. intros Hfc. right.
    destruct (SFmul_zero_finite s fc Hfc) as (t & Ht). exists t.
    unfold py_mul. rewrite Hc. cbn [bind]. by rewrite Ht.
  - intros Hg. right. destruct (SFmul_zero_finite s g Hg) as (t & Ht).
    exists t. unfold py_mul. by rewrite Ht.
Qed.

Lemma py_add_int_zero (f : spec_float) :
  py_add (NFloat f) (NInt 0) = Return (NFloat (SFadd prec emax f (S754_zero false))).
Proof. reflexivity. Qed.

Lemma add_int_zero_same (x x' : Number) :
  same_number x x' -> exists y', py_add x' (NInt 0) = Return y' ∧ same_number x y'.
Proof.
  intros H. destruct H as [|s|f|s s']; rewrite ?py_add_int_zero;
    eexists; (split; [reflexivity|]).
  - constructor.
  - destruct s; constructor.
  - apply SFadd_same_zero.
  - destruct s'; constructor.
Qed.

Lemma SFadd_zero_r_cases (f : spec_float) :
  SFadd prec emax f (S754_zero false) = f
  ∨ exists s t, f = S754_zero s ∧ SFadd prec emax f (S754_zero false) = S754_zero t.
Proof.
  destruct f as [s| | |]; try (by left).
  right. exists s. destruct s; by eexists.
Qed.

Lemma SFadd_zero_cases (s s' : bool) (g : spec_float) :
  SFadd prec emax (S754_zero s) g = SFadd prec emax (S754_zero s') g
  ∨ exists t t', SFadd prec emax (S754_zero s) g = S754_zero t
      ∧ SFadd prec emax (S754_zero s') g = S754_zero t'.
Proof.
  destruct g as [u| | |]; try (by left).
  right. destruct s, s', u; by do 2 eexists.
Qed.

Lemma add_int_zero_exact (x x' : Number) :
  x = x' ∨ float_zeros x x' ->
  exists y', py_add x' (NInt 0) = Return y' ∧ (x = y' ∨ float_zeros x y').
Proof.
  intros [<- | (s & s' & -> & ->)].
  - destruct x as [z|f].
    + exists (NInt z). split; [|by left]. simpl. by rewrite Z.add_0_r.
    + rewrite py_add_int_zero. eexists. split; [reflexivity|].
      destruct (SFadd_zero_r_cases f) as [-> | (s & t & -> & ->)]; [by left|].
      right. by exists s, t.
  - rewrite py_add_int_zero. eexists. split; [reflexivity|]. right.
    exists s. destruct s'; by eexists.
Qed.

Lemma add_exact_or_zeros (x x' q : Number) :
  x = x' ∨ float_zeros x x' ->
  same_outcome (fun y y' => y = y' ∨ float_zeros y y') (py_add x q) (py_add x' q).
Proof.
  intros [<- | (s & s' & -> & ->)].
  - destruct (py_add x q); simpl; auto.
  - assert (forall g, (fun y y' => y = y' ∨ float_zeros y y')
              (NFloat (SFadd prec emax (S754_zero s) g))
              (NFloat (SFadd prec emax (S754_zero s') g))) as Hg.
    { intros g. destruct (SFadd_zero_cases s s' g) as [-> | (t & t' & -> & ->)];
        [by left | right; by exists t, t']. }
    destruct q as [c|g]; simpl; [|apply Hg].
    destruct (float_of_int c) as [g|e]; simpl; [apply Hg | done].
Qed.

(** At one turn, the loop with the zero test and the loop without it keep
    a safe cell in relation. *)
Lemma cell_turn (a_i : list Number) (b : list (list Number)) (j k : nat)
    (aik bkj x x' : Number) (b_k : list Number) :
  a_i !! k = Some aik -> b !! k = Some b_k -> b_k !! j = Some bkj ->
  cell_rel a_i b j x x' ->
  same_outcome (cell_rel a_i b j)
    (if py_eq_zero aik then Return x else cell aik b_k j x) (cell aik b_k j x').
Proof.
  intros Haik Hb_k Hbkj Hrel.
  assert (meets a_i b j aik bkj) as Hmeet.
  { exists k. split; [done|]. by rewrite Hb_k. }
  unfold cell. rewrite (getitem_Some _ _ _ Hbkj). cbn [bind].
  destruct Hrel as [[Hint Hrel] | [Hfl Hrel]].
  - destruct (py_eq_zero aik) eqn:Hz.
    + pose proof (Hint aik bkj Hmeet Hz) as Hints.
      destruct aik as [z|]; [|discriminate]. destruct bkj as [c|]; [|discriminate].
      simpl in Hz. apply Z.eqb_eq in Hz as ->.
      change (py_mul (NInt 0) (NInt c)) with (Return (NInt 0)). cbn [bind].
      destruct (add_int_zero_exact x x' Hrel) as (y' & -> & Hy').
      simpl. left. by split.
    + destruct (py_mul aik bkj) as [q|e]; cbn [bind]; [|done].
      eapply same_outcome_impl; [|by apply add_exact_or_zeros].
      intros y y' Hy. left. by split.
  - pose proof (Hfl aik bkj Hmeet) as Hturn.
    destruct (py_eq_zero aik) eqn:Hz.
    + destruct (mul_zero_harmless aik bkj Hz Hturn) as [-> | (t & ->)]; cbn [bind].
      * destruct (add_int_zero_same x x' Hrel) as (y' & -> & Hy'). simpl. right. by split.
      * destruct (add_zero_same x x' t Hrel) as (y' & -> & Hy'). simpl. right. by split.
    + destruct (py_mul aik bkj) as [q|e] eqn:Hq; cbn [bind]; [|done].
      destruct (py_mul_float aik bkj q Hturn Hq) as (g & ->).
      destruct (add_same x x' g Hrel) as (y & y' & -> & -> & Hy). simpl. right. by split.
Qed.

(** *** Rows and matrices *)

Section SafeCells.

Variables (a b : list (list Number)) (m n p : nat).
Hypothesis a_shape : has_shape a m n.
Hypothesis b_shape : has_shape b n p.

Lemma row_turn (i k : nat) (a_i row row' : list Number) :
  a !! i = Some a_i -> k < n ->
  length row = p -> rel_from (cell_rel a_i b) 0 row row' ->
  same_outcome (fun r r' => length r = p ∧ rel_from (cell_rel a_i b) 0 r r')
    (row_step true a b p i row k) (row_step false a b p i row' k).
Proof.
  intros Ha_i Hk Hlen Hrel.
  pose proof (has_shape_lookup a m n i a_i a_shape Ha_i) as Hlen_a.
  destruct (lookup_lt_is_Some_2 a_i k) as (aik & Haik); [lia|].
  destruct (shape_row b n p k b_shape Hk) as (b_k & Hb_k & Hlen_b).
  pose proof (rel_from_length _ _ _ _ Hrel) as Hlen'.
  assert (foldM (loop_j aik b_k) (range p) row = imapM (cell aik b_k) 0 row)
    as E by (rewrite <- Hlen; apply loop_j_all).
  assert (foldM (loop_j aik b_k) (range p) row' = imapM (cell aik b_k) 0 row')
    as E' by (rewrite <- Hlen, Hlen'; apply loop_j_all).
  unfold row_step.
  rewrite (getitem_Some _ _ _ Ha_i). cbn [bind]. rewrite (getitem_Some _ _ _ Haik).
  cbn [bind andb]. rewrite (getitem_Some _ _ _ Hb_k). cbn [bind]. rewrite E, E'.
  assert ((if py_eq_zero aik then Return row else imapM (cell aik b_k) 0 row)
          = imapM (fun j x => if py_eq_zero aik then Return x else cell aik b_k j x) 0 row)
    as ->.
  { destruct (py_eq_zero aik); [symmetry; apply imapM_Return_id | done]. }
  pose proof (imapM_outcome (cell_rel a_i b)
                (fun j x => if py_eq_zero aik then Return x else cell aik b_k j x)
                (cell aik b_k) row row' 0 Hrel) as Hout.
  simpl in Hout.
  assert (same_outcome (rel_from (cell_rel a_i b) 0)
            (imapM (fun j x => if py_eq_zero aik then Return x else cell aik b_k j x) 0 row)
            (imapM (cell aik b_k) 0 row')) as H.
  { apply Hout. intros j x x' Hj Hx.
    destruct (lookup_lt_is_Some_2 b_k j) as (bkj & Hbkj).
    { apply lookup_lt_Some in Hj. lia. }
    by eapply cell_turn. }
  destruct (imapM (fun j x => if py_eq_zero aik then Return x else cell aik b_k j x) 0 row)
    as [r|e] eqn:Er; destruct (imapM (cell aik b_k) 0 row') as [r'|e']; simpl in *; try done.
  split; [|done]. apply imapM_length in Er. lia.
Qed.

Lemma row_loop_outcome (i : nat) (row row' : list Number) :
  row_rel a b p i row row' ->
  same_outcome (row_rel a b p i)
    (row_loop true a b n p i row) (row_loop false a b n p i row').
Proof.
  intros (a_i & Ha_i & Hlen & Hrel). unfold row_loop.
  eapply same_outcome_impl;
    [|apply (foldM_outcome (fun r r' => length r = p ∧ rel_from (cell_rel a_i b) 0 r r'))].
  - intros r r' [Hr Hrr']. by exists a_i.
  - intros k r r' Hk%elem_of_seq [Hr Hrr']. apply row_turn; [done | lia | done | done].
  - done.
Qed.

Hypothesis safe : forall i j a_i, a !! i = Some a_i -> j < p -> cell_safe a_i b j.

Lemma zero_rows_related :
  rel_from (row_rel a b p) 0
    (replicate m (replicate p (NInt 0))) (replicate m (replicate p (NInt 0))).
Proof.
  apply rel_from_replicate. intros i Hi.
  destruct (shape_row a m n i a_shape) as (a_i & Ha_i & _); [lia|].
  exists a_i. split; [done|]. split; [by rewrite length_replicate|].
  apply rel_from_replicate. intros j Hj.
  destruct (safe i j a_i Ha_i) as [Hint | Hfl]; [lia | |].
  - left. split; [done | by left].
  - right. split; [done | constructor].
Qed.

Lemma cell_rel_same_value (a_i : list Number) (j : nat) (x x' : Number) :
  cell_rel a_i b j x x' -> same_value x x'.
Proof.
  intros [[_ [-> | (s & s' & -> & ->)]] | [_ H]].
  - by left.
  - right. constructor.
  - by right.
Qed.

Lemma safe_rows_outcome :
  same_outcome (Forall2 (Forall2 same_value))
    (imapM (fun i row => row_loop true a b n p i row) 0 (replicate m (replicate p (NInt 0))))
    (imapM (fun i row => row_loop false a b n p i row) 0 (replicate m (replicate p (NInt 0)))).
Proof.
  eapply same_outcome_impl;
    [|apply (imapM_outcome (row_rel a b p) _ _ _ _ 0 zero_rows_related)].
  - intros res res'. apply rel_from_Forall2.
    intros i row row' (a_i & _ & _ & Hrel).
    eapply rel_from_Forall2; [|exact Hrel]. intros j x x'. apply cell_rel_same_value.
  - intros i row row' _ Hrow. simpl. by apply row_loop_outcome.
Qed.

End SafeCells.




Example zero_left_entry :
  multiply_matrices (int_matrix [[0; 2]]%Z) (int_matrix [[1]; [3]]%Z) = Return [[NInt 6]]
  ∧ naive_multiply (int_matrix [[0; 2]]%Z) (int_matrix [[1]; [3]]%Z) = Return [[NInt 6]].
Proof. vm_compute. split; reflexivity. Qed.

Example zero_kinds :
  multiply_matrices (obj_of_matrix [[NFloat (S754_zero true)]])
                    (obj_of_matrix [[NFloat (float_of_Z 5)]]) = Return [[NInt 0]]
  ∧ naive_multiply (obj_of_matrix [[NFloat (S754_zero true)]])
                   (obj_of_matrix [[NFloat (float_of_Z 5)]])
    = Return [[NFloat (S754_zero false)]].
Proof. vm_compute. split; reflexivity. Qed.

(** A NaN under a zero of the left matrix does not always show: here a
    NaN of the left matrix puts NaN in the cell in both loops. *)
Example nan_under_zero_agrees :
  multiply_matrices (obj_of_matrix [[NFloat (S754_zero false); NFloat S754_nan]])
                    (obj_of_matrix [[NFloat S754_nan]; [NFloat (float_of_Z 1)]])
  = Return [[NFloat S754_nan]]
  ∧ naive_multiply (obj_of_matrix [[NFloat (S754_zero false); NFloat S754_nan]])
                   (obj_of_matrix [[NFloat S754_nan]; [NFloat (float_of_Z 1)]])
    = Return [[NFloat S754_nan]].
Proof. vm_compute. split; reflexivity. Qed.

(** * Further properties of the validator *)

Lemma convert_row_Return (name : string) (row : pyobj) (r : list Number) :
  convert_row name row = Return r <-> same_values row r.
Proof.
  unfold convert_row, same_values. rewrite not_collection_test.
  destruct (is_collection row); simpl; [|split; [done | by intros [? _]]].
  rewrite mapM_Return. split.
  - intros H. split; [done|].
    induction H as [|x y l l' Hxy _ IH]; simpl; [done|]. f_equal; [|done].
    destruct (is_number x) eqn:Hx.
    + destruct (ensure_number_Return name x Hx) as (y' & Hy' & ->). congruence.
    + rewrite (ensure_number_Raise name x Hx) in Hxy. discriminate.
  - intros [_ ->]. induction r as [|y r IH]; simpl; constructor; [|done].
    apply ensure_number_of_number.
Qed.

Lemma convert_rows_Return (name : string) (items : list pyobj) (m : list (list Number)) :
  mapM (convert_row name) items = Return m <-> Forall2 same_values items m.
Proof.
  rewrite mapM_Return. split; intros H; (eapply Forall2_impl; [exact H|]);
    intros row r; by rewrite convert_row_Return.
Qed.

Lemma same_values_length (row : pyobj) (r : list Number) :
  same_values row r -> length r = length (iter_items row).
Proof. intros [_ ->]. by rewrite length_map. Qed.

Lemma convert_rows_sizes (items : list pyobj) (m : list (list Number)) :
  Forall2 same_values items m ->
  map length m = map (fun row => length (iter_items row)) items.
Proof.
  induction 1 as [|row r items m Hrow _ IH]; simpl; [done|].
  by rewrite (same_values_length _ _ Hrow), IH.
Qed.

(** The three shape tests, on rows that were all converted. *)
Lemma validate_converted (name : string) (o : pyobj) (m : list (list Number)) :
  is_collection o = true -> Forall2 same_values (iter_items o) m ->
  _validate_matrix o name
  = if decide (length (iter_items o) = 0) then
      Raise (ValueError (name +:+ " must have at least one row"))
    else if decide (0 ∈ (list_to_set (row_sizes o) : gset nat)) then
      Raise (ValueError (name +:+ " rows must be non-empty"))
    else if decide (size (list_to_set (row_sizes o) : gset nat) ≠ 1) then
      Raise (ValueError (name +:+ " must be rectangular (all rows same length)"))
    else Return m.
Proof.
  intros Hc Hrows. rewrite validate_collection by done.
  pose proof (convert_rows_sizes _ _ Hrows) as Hsizes.
  apply convert_rows_Return with (name := name) in Hrows as Hconv.
  rewrite Hconv. simpl. rewrite Hsizes. unfold row_sizes.
  by rewrite (Forall2_length _ _ _ Hrows).
Qed.

Lemma good_row_converted (name : string) (items : list pyobj) :
  forallb good_row items = true -> exists m, Forall2 same_values items m.
Proof.
  induction items as [|row items IH]; simpl; [by exists []|].
  intros [Hrow Hitems]%andb_true_iff.
  destruct (convert_row_good name row Hrow) as (r & Hr%convert_row_Return).
  destruct (IH Hitems) as (m & Hm). exists (r :: m). by constructor.
Qed.

Lemma same_values_good_row (row : pyobj) (r : list Number) :
  same_values row r -> good_row row = true.
Proof.
  intros [Hc Hitems]. unfold good_row. rewrite Hc, Hitems. simpl.
  apply forallb_forall. intros x (y & <- & _)%in_map_iff. by destruct y.
Qed.

Lemma converted_good_rows (items : list pyobj) (m : list (list Number)) :
  Forall2 same_values items m -> forallb good_row items = true.
Proof.
  induction 1 as [|row r items m Hrow _ IH]; simpl; [done|].
  by rewrite (same_values_good_row _ _ Hrow), IH.
Qed.

(** X1. The validator returns [m] exactly when the input is a list or
    tuple whose rows are lists or tuples of ints and floats, [m] holds the
    same values row by row, there is at least one row, and all rows have
    one common length that is not zero. *)
Theorem validate_Return_iff (name : string) (o : pyobj) (m : list (list Number)) :
  _validate_matrix o name = Return m
  <-> is_collection o = true
      ∧ Forall2 same_values (iter_items o) m
      ∧ exists c, well_formed m (length m) c.
Proof.
  split.
  - intros H. pose proof (validate_Return_well_formed _ _ _ H) as Hwf.
    destruct (is_collection o) eqn:Hc; [|by rewrite validate_not_collection in H].
    split; [done|]. split; [|done].
    rewrite validate_collection in H by done.
    apply bind_Return in H as (rows & Hrows & H).
    repeat destruct (decide _); try discriminate. injection H as ->.
    by apply convert_rows_Return in Hrows.
  - intros (Hc & Hrows & c & (_ & Hlen) & Hm & Hc0).
    rewrite (validate_converted name o m Hc Hrows).
    pose proof (convert_rows_sizes _ _ Hrows) as Hsizes.
    unfold row_sizes. rewrite <- Hsizes, (Forall2_length _ _ _ Hrows).
    assert ((list_to_set (map length m) : gset nat) = {[c]}) as ->.
    { apply lengths_singleton; [|by apply Forall_map].
      destruct m; [simpl in Hm; lia | done]. }
    destruct (decide (length m = 0)); [lia|].
    destruct (decide (0 ∈ ({[c]} : gset nat))) as [Hin|_].
    { apply elem_of_singleton in Hin. lia. }
    rewrite size_singleton. by destruct (decide (1 ≠ 1)).
Qed.

(** X2. What the validator returns is valid in turn: validating the
    returned copy again, under any label, gives the same copy back. *)
Theorem validate_idempotent (name name' : string) (o : pyobj) (m : list (list Number)) :
  _validate_matrix o name = Return m ->
  _validate_matrix (obj_of_matrix m) name' = Return m.
Proof.
  intros (c & Hwf)%validate_Return_well_formed. by eapply validate_well_formed.
Qed.

Lemma validate_idempotent_witness :
  _validate_matrix (PTuple [PTuple [PInt 1; PInt 2]]) "left" = Return [[NInt 1; NInt 2]]
  ∧ _validate_matrix (obj_of_matrix [[NInt 1; NInt 2]]) "right" = Return [[NInt 1; NInt 2]].
Proof.
  split; [reflexivity|].
  apply (validate_idempotent "left" "right" (PTuple [PTuple [PInt 1; PInt 2]])).
  reflexivity.
Defined.

Lemma convert_row_not_good (name : string) (row : pyobj) :
  good_row row = false ->
  convert_row name row = Raise (sequence_error name)
  ∨ convert_row name row = Raise (number_error name).
Proof.
  intros Hrow. destruct (convert_row name row) as [r|e] eqn:E.
  - apply convert_row_Return, same_values_good_row in E. congruence.
  - apply convert_row_Raise in E as [-> | ->]; auto.
Qed.

(** X3. The validator raises a [TypeError] exactly when the input is not a
    list or tuple of lists or tuples of ints and floats: text, a number,
    [None] or a dict at either level, or an element that is not an int or
    a float (a boolean included), whatever the shape. *)
Theorem validate_TypeError_iff (name : string) (o : pyobj) :
  (exists msg, _validate_matrix o name = Raise (TypeError msg))
  <-> is_collection o = false ∨ forallb good_row (iter_items o) = false.
Proof.
  split.
  - intros (msg & H).
    destruct (is_collection o) eqn:Hc; [right | by left].
    destruct (forallb good_row (iter_items o)) eqn:Hgood; [|done].
    destruct (good_row_converted name _ Hgood) as (m & Hm).
    rewrite (validate_converted name o m Hc Hm) in H.
    repeat destruct (decide _); discriminate.
  - intros [Hc | Hgood].
    + rewrite validate_not_collection by done. by eexists.
    + destruct (is_collection o) eqn:Hc;
        [|rewrite validate_not_collection by done; by eexists].
      assert (exists row, row ∈ iter_items o ∧ good_row row = false) as (row & Hin & Hrow).
      { induction (iter_items o) as [|x l IH]; [done|]. simpl in Hgood.
        destruct (good_row x) eqn:Hx.
        - destruct (IH Hgood) as (row & Hin & Hrow). exists row. split; [by constructor | done].
        - exists x. split; [constructor | done]. }
      destruct (convert_row_not_good name row Hrow) as [E | E];
        destruct (validate_bad_row name o row _ Hc Hin E) as [-> | ->]; by eexists.
Qed.

(** X4. The first faulty row decides the message: when every row before it
    is a collection of numbers and it is a list or tuple holding something
    that is not an int or a float (a boolean, [None], text, a nested list),
    the error is the [TypeError] "<label> must contain only numbers (int or
    float)", whatever comes after and whatever the shape. *)
Theorem non_number_rejected (name : string) (o row : pyobj) (pre post : list pyobj) :
  is_collection o = true ->
  iter_items o = pre ++ row :: post ->
  forallb good_row pre = true ->
  is_collection row = true -> forallb is_number (iter_items row) = false ->
  _validate_matrix o name
  = Raise (TypeError (name +:+ " must contain only numbers (int or float)")).
Proof.
  intros Hc Hitems Hpre Hrow Hnum.
  rewrite validate_collection by done. rewrite Hitems.
  rewrite (mapM_first_Raise _ pre post row (number_error name)); [done | |].
  - apply Forall_forall. intros r Hr. apply convert_row_good.
    rewrite forallb_forall in Hpre. by apply Hpre, list_elem_of_In.
  - destruct (convert_row_not_good name row) as [E | E]; [|  | done].
    + unfold good_row. by rewrite Hrow, Hnum.
    + unfold convert_row in E. rewrite not_collection_test, Hrow in E. simpl in E.
      apply mapM_Raise in E as (x & _ & Hx). apply ensure_number_cases in Hx.
      unfold number_error, sequence_error in Hx. injection Hx as Hx.
      apply (inj (String.append name)) in Hx. discriminate.
Qed.

Lemma non_number_rejected_witness :
  _validate_matrix (PList [PList [PInt 1; PInt 2]; PList [PNone]; PInt 7]) "left"
  = Raise (TypeError "left must contain only numbers (int or float)").
Proof.
  apply (non_number_rejected "left" (PList [PList [PInt 1; PInt 2]; PList [PNone]; PInt 7])
           (PList [PNone]) [PList [PInt 1; PInt 2]] [PInt 7]); reflexivity.
Defined.

(** X5. When every row is a collection of numbers and one of them is
    empty, the error is the [ValueError] "<label> rows must be non-empty",
    also when the rows differ in length. *)
Theorem empty_row_rejected (name : string) (o row : pyobj) :
  is_collection o = true -> forallb good_row (iter_items o) = true ->
  row ∈ iter_items o -> iter_items row = [] ->
  _validate_matrix o name = Raise (ValueError (name +:+ " rows must be non-empty")).
Proof.
  intros Hc Hgood Hin Hempty.
  destruct (good_row_converted name _ Hgood) as (m & Hm).
  rewrite (validate_converted name o m Hc Hm).
  destruct (decide (length (iter_items o) = 0)) as [Hlen|_].
  { destruct (iter_items o); [by apply elem_of_nil in Hin | done]. }
  destruct (decide (0 ∈ _)) as [_|Hzero]; [done|].
  exfalso. apply Hzero, elem_of_list_to_set. unfold row_sizes.
  apply list_elem_of_fmap. exists row. by rewrite Hempty.
Qed.

Lemma empty_row_rejected_witness :
  _validate_matrix (PList [PList [PInt 1; PInt 2]; PTuple []]) "right"
  = Raise (ValueError "right rows must be non-empty").
Proof.
  apply (empty_row_rejected "right" (PList [PList [PInt 1; PInt 2]; PTuple []]) (PTuple []));
    try reflexivity.
  apply list_elem_of_In. simpl. auto.
Defined.

(** X6. When every row is a non-empty collection of numbers and two rows
    differ in length, the error is the [ValueError] "<label> must be
    rectangular (all rows same length)". *)
Theorem ragged_rejected (name : string) (o row row' : pyobj) :
  is_collection o = true -> forallb good_row (iter_items o) = true ->
  Forall (fun r => iter_items r ≠ []) (iter_items o) ->
  row ∈ iter_items o -> row' ∈ iter_items o ->
  length (iter_items row) ≠ length (iter_items row') ->
  _validate_matrix o name
  = Raise (ValueError (name +:+ " must be rectangular (all rows same length)")).
Proof.
  intros Hc Hgood Hne Hin Hin' Hdiff.
  destruct (good_row_converted name _ Hgood) as (m & Hm).
  rewrite (validate_converted name o m Hc Hm).
  destruct (decide (length (iter_items o) = 0)) as [Hlen|_].
  { destruct (iter_items o); [by apply elem_of_nil in Hin | done]. }
  destruct (decide (0 ∈ _)) as [Hzero|_].
  { exfalso. apply elem_of_list_to_set in Hzero. unfold row_sizes in Hzero.
    apply list_elem_of_fmap in Hzero as (r & Hr & Hr').
    eapply Forall_forall in Hne; [|exact Hr'].
    destruct (iter_items r); [done | discriminate]. }
  destruct (decide (size _ ≠ 1)) as [_|Hsize]; [done|].
  exfalso. apply Hdiff.
  assert (size (list_to_set (row_sizes o) : gset nat) = 1) as Hone
    by (destruct (decide (size (list_to_set (row_sizes o) : gset nat) = 1)); done).
  destruct (lengths_of_singleton _ Hone) as (c & Hall).
  unfold row_sizes in Hall. rewrite Forall_fmap in Hall.
  rewrite Forall_forall in Hall.
  pose proof (Hall row Hin) as H1. pose proof (Hall row' Hin') as H2.
  simpl in H1, H2. congruence.
Qed.

Lemma ragged_rejected_witness :
  _validate_matrix (PList [PList [PInt 1; PInt 2]; PList [PInt 3]]) "left"
  = Raise (ValueError "left must be rectangular (all rows same length)").
Proof.
  apply (ragged_rejected "left" (PList [PList [PInt 1; PInt 2]; PList [PInt 3]])
           (PList [PInt 1; PInt 2]) (PList [PInt 3])); try reflexivity.
  - repeat constructor; discriminate.
  - apply list_elem_of_In. simpl. auto.
  - apply list_elem_of_In. simpl. auto.
  - simpl. lia.
Defined.

Lemma validate_Return_iff_witness :
  _validate_matrix (PList [PTuple [PInt 1; PFloat S754_nan]]) "left"
  = Return [[NInt 1; NFloat S754_nan]].
Proof.
  apply (proj2 (validate_Return_iff "left" (PList [PTuple [PInt 1; PFloat S754_nan]])
                  [[NInt 1; NFloat S754_nan]])).
  split; [reflexivity|]. split.
  - repeat constructor.
  - exists 2. split; [split; [reflexivity | repeat constructor] | simpl; lia].
Defined.

Lemma validate_TypeError_iff_witness :
  exists msg, _validate_matrix (PList [PList [PInt 1]; PStr "23"]) "left" = Raise (TypeError msg).
Proof.
  apply (proj2 (validate_TypeError_iff "left" (PList [PList [PInt 1]; PStr "23"]))).
  right. reflexivity.
Defined.

(** * Further properties of the multiplier *)

Lemma foldM_invariant {S K} (Inv : S -> Prop) (f : S -> K -> result S) (ks : list K) :
  (forall s k t, k ∈ ks -> Inv s -> f s k = Return t -> Inv t) ->
  forall s t, Inv s -> foldM f ks s = Return t -> Inv t.
Proof.
  induction ks as [|k ks IH]; intros Hstep s t Hs H; simpl in H.
  - by injection H as <-.
  - apply bind_Return in H as (s' & Hs' & H).
    eapply IH; [| |exact H].
    + intros. eapply Hstep; [by constructor | done | done].
    + eapply Hstep; [constructor | done | done].
Qed.

(** A loop fails at some turn, from a state the invariant holds of. *)
Lemma foldM_Raise {S K} (Inv : S -> Prop) (f : S -> K -> result S) (ks : list K) (e : pyexc) :
  (forall s k t, k ∈ ks -> Inv s -> f s k = Return t -> Inv t) ->
  forall s, Inv s -> foldM f ks s = Raise e ->
    exists s' k, k ∈ ks ∧ Inv s' ∧ f s' k = Raise e.
Proof.
  induction ks as [|k ks IH]; intros Hstep s Hs H; simpl in H; [done|].
  apply bind_Raise in H as [H | (s' & Hs' & H)].
  - exists s, k. split; [constructor | done].
  - destruct (IH) with (s := s') as (s'' & k' & Hk' & Hs'' & H'); [| |done|].
    + intros. eapply Hstep; [by constructor | done | done].
    + eapply Hstep; [constructor | done | done].
    + exists s'', k'. split; [by constructor | done].
Qed.

Lemma imapM_Raise {X} (g : nat -> X -> result X) (s : nat) (l : list X) (e : pyexc) :
  imapM g s l = Raise e -> exists i x, l !! i = Some x ∧ g (s + i) x = Raise e.
Proof.
  revert s. induction l as [|x l IH]; intros s H; simpl in H; [done|].
  apply bind_Raise in H as [H | (y & _ & H)].
  - exists 0, x. by rewrite Nat.add_0_r.
  - apply bind_Raise in H as [H | (ys & _ & H)]; [|done].
    destruct (IH _ H) as (i & x' & Hi & Hx'). exists (S i), x'.
    by rewrite Nat.add_succ_r.
Qed.

Lemma float_of_int_Raise (z : Z) (e : pyexc) : float_of_int z = Raise e -> e = OverflowError.
Proof.
  unfold float_of_int. destruct (binary_normalize prec emax z 0 false); congruence.
Qed.

Lemma py_mul_Raise (x y : Number) (e : pyexc) : py_mul x y = Raise e -> e = OverflowError.
Proof.
  destruct x, y; simpl; try discriminate;
    intros [H | (? & _ & H)]%bind_Raise; try discriminate; by eapply float_of_int_Raise.
Qed.

Lemma py_add_Raise (x y : Number) (e : pyexc) : py_add x y = Raise e -> e = OverflowError.
Proof.
  destruct x, y; simpl; try discriminate;
    intros [H | (? & _ & H)]%bind_Raise; try discriminate; by eapply float_of_int_Raise.
Qed.

Lemma row_step_length (skip : bool) (a b : list (list Number)) (p i k : nat)
    (row row' : list Number) :
  length row = p -> row_step skip a b p i row k = Return row' -> length row' = p.
Proof.
  intros Hlen H. unfold row_step in H.
  apply bind_Return in H as (a_i & _ & H). apply bind_Return in H as (aik & _ & H).
  destruct (skip && py_eq_zero aik); [by injection H as <-|].
  apply bind_Return in H as (b_k & _ & H).
  rewrite <- Hlen, loop_j_all in H. apply imapM_length in H. lia.
Qed.

Lemma row_loop_length (skip : bool) (a b : list (list Number)) (n p i : nat)
    (row row' : list Number) :
  length row = p -> row_loop skip a b n p i row = Return row' -> length row' = p.
Proof.
  intros Hlen H. unfold row_loop in H.
  eapply (foldM_invariant (fun r => length r = p)); [|exact Hlen|exact H].
  intros r k t _ Hr Ht. by eapply row_step_length.
Qed.

(** Within the shapes, a turn of the loop over [k] can only fail in the
    arithmetic. *)
Lemma row_step_Raise (skip : bool) (a b : list (list Number)) (m n p i k : nat)
    (row : list Number) (e : pyexc) :
  has_shape a m n -> has_shape b n p -> i < m -> k < n -> length row = p ->
  row_step skip a b p i row k = Raise e -> e = OverflowError.
Proof.
  intros Ha Hb Hi Hk Hlen H. unfold row_step in H.
  destruct (shape_row a m n i Ha Hi) as (a_i & Ha_i & Hlen_a).
  destruct (lookup_lt_is_Some_2 a_i k) as (aik & Haik); [lia|].
  destruct (shape_row b n p k Hb Hk) as (b_k & Hb_k & Hlen_b).
  rewrite (getitem_Some _ _ _ Ha_i) in H. cbn [bind] in H.
  rewrite (getitem_Some _ _ _ Haik) in H. cbn [bind] in H.
  destruct (skip && py_eq_zero aik); [done|].
  rewrite (getitem_Some _ _ _ Hb_k) in H. cbn [bind] in H.
  rewrite <- Hlen, loop_j_all in H.
  apply imapM_Raise in H as (j & old & Hj & H). simpl in H. unfold cell in H.
  destruct (lookup_lt_is_Some_2 b_k j) as (bkj & Hbkj).
  { apply lookup_lt_Some in Hj. lia. }
  rewrite (getitem_Some _ _ _ Hbkj) in H. cbn [bind] in H.
  apply bind_Raise in H as [H | (q & _ & H)].
  - by eapply py_mul_Raise.
  - by eapply py_add_Raise.
Qed.

Lemma row_loop_Raise (skip : bool) (a b : list (list Number)) (m n p i : nat)
    (row : list Number) (e : pyexc) :
  has_shape a m n -> has_shape b n p -> i < m -> length row = p ->
  row_loop skip a b n p i row = Raise e -> e = OverflowError.
Proof.
  intros Ha Hb Hi Hlen H. unfold row_loop in H.
  apply (foldM_Raise (fun r => length r = p)) in H as (r & k & Hk & Hr & H); [| |done].
  - apply elem_of_seq in Hk.
    apply (row_step_Raise skip a b m n p i k r e); try done. lia.
  - intros r k t _ Hr Ht. by eapply row_step_length.
Qed.

Lemma multiply_validated_Raise (a b : list (list Number)) (m n p : nat) (e : pyexc) :
  well_formed a m n -> well_formed b n p ->
  multiply_validated a b = Raise e -> e = OverflowError.
Proof.
  intros Ha Hb H. rewrite (multiply_validated_rows _ _ _ _ _ Ha Hb) in H.
  apply imapM_Raise in H as (i & row & Hi & H). simpl in H.
  apply lookup_replicate in Hi as [-> Hi].
  eapply row_loop_Raise; [apply Ha | apply Hb | exact Hi | | exact H].
  by rewrite length_replicate.
Qed.

Lemma multiply_validated_shape (a b res : list (list Number)) (m n p : nat) :
  well_formed a m n -> well_formed b n p ->
  multiply_validated a b = Return res -> well_formed res m p.
Proof.
  intros Ha Hb H. rewrite (multiply_validated_rows _ _ _ _ _ Ha Hb) in H.
  split; [split|].
  - apply imapM_length in H. by rewrite length_replicate in H.
  - apply Forall_lookup. intros i row Hrow.
    assert (i < m) as Hi.
    { apply imapM_length in H. rewrite length_replicate in H.
      apply lookup_lt_Some in Hrow. lia. }
    assert (replicate m (replicate p (NInt 0)) !! i = Some (replicate p (NInt 0))) as Hz
      by by apply lookup_replicate_2.
    destruct (imapM_lookup _ _ _ _ _ _ H Hz) as (row' & Hrow' & Hloop).
    simpl in Hloop. rewrite Hrow in Hrow'. injection Hrow' as <-.
    eapply row_loop_length; [|exact Hloop]. by rewrite length_replicate.
  - destruct Ha as (_ & ? & _), Hb as (_ & _ & ?). done.
Qed.

(** X7. Whenever [multiply_matrices] returns, both inputs were valid with
    matching inner dimensions, the result has the rows of the left matrix
    and the columns of the right one, and it is a valid matrix itself: it
    passes the validator unchanged and can be multiplied again. *)
Theorem product_shape (left right : pyobj) (res : list (list Number)) :
  multiply_matrices left right = Return res ->
  exists a b m n p,
    _validate_matrix left "left" = Return a ∧ _validate_matrix right "right" = Return b
    ∧ well_formed a m n ∧ well_formed b n p ∧ well_formed res m p
    ∧ forall name, _validate_matrix (obj_of_matrix res) name = Return res.
Proof.
  unfold multiply_matrices. intros H.
  apply bind_Return in H as (a & Hl & H). apply bind_Return in H as (b & Hr & H).
  destruct (validate_Return_well_formed _ _ _ Hl) as (n & Ha).
  destruct (validate_Return_well_formed _ _ _ Hr) as (p & Hb).
  rewrite (multiply_validated_shapes _ _ _ _ _ _ Ha Hb) in H.
  destruct (decide (n ≠ length b)) as [|Heq]; [done|].
  assert (n = length b) as -> by (destruct (decide (n = length b)); done).
  assert (multiply_validated a b = Return res) as Hres.
  { rewrite (multiply_validated_shapes _ _ _ _ _ _ Ha Hb).
    by destruct (decide (length b ≠ length b)). }
  pose proof (multiply_validated_shape _ _ _ _ _ _ Ha Hb Hres) as Hshape.
  exists a, b, (length a), (length b), p. repeat split; try done; try apply Ha;
    try apply Hb; try apply Hshape.
  intros name. by eapply validate_well_formed.
Qed.

Lemma product_shape_witness :
  exists a b m n p,
    _validate_matrix (int_matrix [[1; 2]]%Z) "left" = Return a
    ∧ _validate_matrix (int_matrix [[3]; [4]]%Z) "right" = Return b
    ∧ well_formed a m n ∧ well_formed b n p ∧ well_formed [[NInt 11]] m p
    ∧ forall name, _validate_matrix (obj_of_matrix [[NInt 11]]) name = Return [[NInt 11]].
Proof.
  apply (product_shape (int_matrix [[1; 2]]%Z) (int_matrix [[3]; [4]]%Z) [[NInt 11]]).
  vm_compute. reflexivity.
Defined.

(** X8. [multiply_matrices] can fail in four ways only: with the error of
    validating the left input; with the error of validating the right
    input, the left one being valid; with the shape error, both being
    valid; or, within the loops, with [OverflowError] (an int too large to
    be converted to float).  No index is ever out of range. *)
Theorem multiply_failures (left right : pyobj) (e : pyexc) :
  multiply_matrices left right = Raise e ->
  _validate_matrix left "left" = Raise e
  ∨ (exists a, _validate_matrix left "left" = Return a
       ∧ _validate_matrix right "right" = Raise e)
  ∨ (exists a b m n n' p,
       _validate_matrix left "left" = Return a ∧ _validate_matrix right "right" = Return b
       ∧ well_formed a m n ∧ well_formed b n' p
       ∧ (n ≠ n' ∧ e = ValueError (shape_message m n n' p) ∨ n = n' ∧ e = OverflowError)).
Proof.
  unfold multiply_matrices. intros H.
  apply bind_Raise in H as [H | (a & Hl & H)]; [by left|]. right.
  apply bind_Raise in H as [H | (b & Hr & H)]; [left; by exists a|]. right.
  destruct (validate_Return_well_formed _ _ _ Hl) as (n & Ha).
  destruct (validate_Return_well_formed _ _ _ Hr) as (p & Hb).
  exists a, b, (length a), n, (length b), p.
  split; [done|]. split; [done|]. split; [exact Ha|]. split; [exact Hb|].
  destruct (decide (n = length b)) as [Heq|Hne].
  - right. split; [done|]. subst n.
    exact (multiply_validated_Raise a b (length a) (length b) p e Ha Hb H).
  - left. split; [done|].
    rewrite (multiply_validated_shapes _ _ _ _ _ _ Ha Hb) in H.
    destruct (decide (n ≠ length b)); [congruence | done].
Qed.

Lemma multiply_failures_witness :
  _validate_matrix (int_matrix [[2 ^ 1024]]%Z) "left" = Raise OverflowError
  ∨ (exists a, _validate_matrix (int_matrix [[2 ^ 1024]]%Z) "left" = Return a
       ∧ _validate_matrix (PList [PList [PFloat (float_of_Z 1)]]) "right" = Raise OverflowError)
  ∨ (exists a b m n n' p,
       _validate_matrix (int_matrix [[2 ^ 1024]]%Z) "left" = Return a
       ∧ _validate_matrix (PList [PList [PFloat (float_of_Z 1)]]) "right" = Return b
       ∧ well_formed a m n ∧ well_formed b n' p
       ∧ (n ≠ n' ∧ OverflowError = ValueError (shape_message m n n' p)
          ∨ n = n' ∧ OverflowError = OverflowError)).
Proof.
  apply (multiply_failures (int_matrix [[2 ^ 1024]]%Z) (PList [PList [PFloat (float_of_Z 1)]])).
  vm_compute. reflexivity.
Defined.

Lemma imapM_returns {X} (P : X -> Prop) (g : nat -> X -> result X) (s : nat) (l : list X) :
  Forall P l ->
  (forall j x, l !! j = Some x -> P x -> exists y, g (s + j) x = Return y ∧ P y) ->
  exists ys, imapM g s l = Return ys ∧ Forall P ys.
Proof.
  intros Hl. revert s. induction Hl as [|x l Hx _ IH]; intros s Hg; simpl.
  - by exists [].
  - destruct (Hg 0 x eq_refl Hx) as (y & Hy & HPy). rewrite Nat.add_0_r in Hy.
    rewrite Hy. simpl.
    destruct (IH (S s)) as (ys & -> & Hys).
    { intros j z Hz HPz. specialize (Hg (S j) z Hz HPz). by rewrite Nat.add_succ_r in Hg. }
    exists (y :: ys). split; [done | by constructor].
Qed.

Lemma foldM_returns {S K} (Inv : S -> Prop) (f : S -> K -> result S) (ks : list K) :
  (forall k s, k ∈ ks -> Inv s -> exists t, f s k = Return t ∧ Inv t) ->
  forall s, Inv s -> exists t, foldM f ks s = Return t ∧ Inv t.
Proof.
  induction ks as [|k ks IH]; intros Hstep s Hs; simpl; [by exists s|].
  destruct (Hstep k s) as (t & -> & Ht); [constructor | done |]. simpl.
  apply IH; [|done]. intros k' u Hk'. apply Hstep. by constructor.
Qed.

Section FloatInputs.

Variables (a b : list (list Number)) (m n p : nat).
Hypothesis a_shape : has_shape a m n.
Hypothesis b_shape : has_shape b n p.
Hypothesis a_floats : Forall (Forall (fun x => is_float x = true)) a.
Hypothesis b_floats : Forall (Forall (fun x => is_float x = true)) b.

Lemma float_row_step_returns (i k : nat) (row : list Number) :
  i < m -> k < n -> float_row p row ->
  exists r, row_step true a b p i row k = Return r ∧ float_row p r.
Proof.
  intros Hi Hk [Hlen Hrow].
  destruct (shape_row a m n i a_shape Hi) as (a_i & Ha_i & Hlen_a).
  destruct (lookup_lt_is_Some_2 a_i k) as (aik & Haik); [lia|].
  destruct (shape_row b n p k b_shape Hk) as (b_k & Hb_k & Hlen_b).
  assert (Forall (fun x => is_float x = true) b_k) as Hfl
    by by eapply Forall_lookup in b_floats.
  assert (is_float aik = true) as Hfloat.
  { eapply Forall_lookup in a_floats; [|exact Ha_i].
    by eapply Forall_lookup in a_floats. }
  destruct aik as [|f]; [discriminate|].
  unfold row_step.
  rewrite (getitem_Some _ _ _ Ha_i). cbn [bind]. rewrite (getitem_Some _ _ _ Haik).
  cbn [bind andb].
  destruct (py_eq_zero (NFloat f)); [by exists row|].
  rewrite (getitem_Some _ _ _ Hb_k). cbn [bind].
  rewrite <- Hlen, loop_j_all.
  destruct (imapM_returns (fun x => start_or_float x = true) (cell (NFloat f) b_k) 0 row Hrow)
    as (r & Hr & Hfr).
  - intros j x Hj Hx. simpl. unfold cell.
    destruct (lookup_lt_is_Some_2 b_k j) as (y & Hy).
    { apply lookup_lt_Some in Hj. lia. }
    rewrite (getitem_Some _ _ _ Hy). cbn [bind].
    eapply Forall_lookup in Hfl; [|exact Hy]. simpl in Hfl.
    destruct y as [|g]; [discriminate|]. cbn [py_mul bind].
    destruct x as [z|h]; simpl in Hx.
    + apply Z.eqb_eq in Hx as ->. rewrite py_add_start. by eexists.
    + by eexists.
  - exists r. split; [done|]. split; [|done].
    apply imapM_length in Hr. lia.
Qed.

Lemma float_rows_return :
  exists res,
    imapM (fun i row => row_loop true a b n p i row) 0 (replicate m (replicate p (NInt 0)))
    = Return res
    ∧ Forall (Forall (fun x => start_or_float x = true)) res.
Proof.
  destruct (imapM_returns (float_row p) (fun i row => row_loop true a b n p i row) 0
              (replicate m (replicate p (NInt 0)))) as (res & Hres & Hall).
  - apply Forall_replicate. split; [by rewrite length_replicate|].
    by apply Forall_replicate.
  - intros i row Hi Hrow. simpl. apply lookup_replicate in Hi as [_ Hi].
    unfold row_loop. apply (foldM_returns (float_row p)); [|done].
    intros k r Hk%elem_of_seq Hr. apply float_row_step_returns; [done | lia | done].
  - exists res. split; [done|]. eapply Forall_impl; [exact Hall|]. by intros r [_ Hr].
Qed.

End FloatInputs.

(** X9. On valid float matrices with matching inner dimensions, NaN and
    infinities included, [multiply_matrices] always returns: no conversion
    can overflow.  Every element of the result is a float, or the int 0 the
    cell started with. *)
Theorem float_product_returns (a b : list (list Number)) (m n p : nat) :
  well_formed a m n -> well_formed b n p ->
  Forall (Forall (fun x => is_float x = true)) a ->
  Forall (Forall (fun x => is_float x = true)) b ->
  exists res,
    multiply_matrices (obj_of_matrix a) (obj_of_matrix b) = Return res
    ∧ Forall (Forall (fun x => start_or_float x = true)) res.
Proof.
  intros Ha Hb Hfa Hfb. unfold multiply_matrices.
  rewrite (validate_well_formed "left" a m n Ha), (validate_well_formed "right" b n p Hb).
  simpl. rewrite (multiply_validated_rows a b m n p Ha Hb).
  apply float_rows_return; [apply Ha | apply Hb | done | done].
Qed.

Lemma float_product_returns_witness :
  exists res,
    multiply_matrices (obj_of_matrix [[NFloat (S754_infinity false); NFloat (S754_zero true)]])
                      (obj_of_matrix [[NFloat (S754_zero false)]; [NFloat S754_nan]])
    = Return res
    ∧ Forall (Forall (fun x => start_or_float x = true)) res.
Proof.
  apply (float_product_returns [[NFloat (S754_infinity false); NFloat (S754_zero true)]]
           [[NFloat (S754_zero false)]; [NFloat S754_nan]] 1 2 1).
  - split; [split; [reflexivity | repeat constructor] | lia].
  - split; [split; [reflexivity | repeat constructor] | lia].
  - repeat constructor.
  - repeat constructor.
Defined.

(** X10. When every element of the left matrix equals zero (the int 0 or a
    float zero of either sign), the product is the matrix of int 0, whatever
    the valid right matrix holds: floats, NaN, infinities or huge ints. *)
Theorem zero_left_product (a b : list (list Number)) (m n p : nat) :
  well_formed a m n -> well_formed b n p ->
  Forall (Forall (fun x => py_eq_zero x = true)) a ->
  multiply_matrices (obj_of_matrix a) (obj_of_matrix b)
  = Return (replicate m (replicate p (NInt 0))).
Proof.
  intros Ha Hb Hzero. unfold multiply_matrices.
  rewrite (validate_well_formed "left" a m n Ha), (validate_well_formed "right" b n p Hb).
  simpl. rewrite (multiply_validated_rows a b m n p Ha Hb).
  rewrite (replicate_tabulate _ m 0). apply imapM_tabulate. intros i Hi. simpl.
  unfold row_loop.
  apply (foldM_range_chain _ (fun _ => replicate p (NInt 0))).
  intros k Hk. unfold row_step.
  destruct (shape_row a m n i (proj1 Ha)) as (a_i & Ha_i & Hlen_a); [lia|].
  destruct (lookup_lt_is_Some_2 a_i k) as (aik & Haik); [lia|].
  rewrite (getitem_Some _ _ _ Ha_i). cbn [bind]. rewrite (getitem_Some _ _ _ Haik).
  cbn [bind andb].
  eapply Forall_lookup in Hzero; [|exact Ha_i].
  eapply Forall_lookup in Hzero; [|exact Haik]. simpl in Hzero. by rewrite Hzero.
Qed.

Lemma zero_left_product_witness :
  multiply_matrices (obj_of_matrix [[NInt 0; NFloat (S754_zero true)]])
                    (obj_of_matrix [[NFloat S754_nan]; [NInt (2 ^ 2000)]])
  = Return (replicate 1 (replicate 1 (NInt 0))).
Proof.
  apply (zero_left_product [[NInt 0; NFloat (S754_zero true)]]
           [[NFloat S754_nan]; [NInt (2 ^ 2000)]] 1 2 1).
  - split; [split; [reflexivity | repeat constructor] | lia].
  - split; [split; [reflexivity | repeat constructor] | lia].
  - repeat constructor.
Defined.

(** ** Algebra of integer products *)

Lemma big_sum_ext (f g : nat -> Z) (n : nat) :
  (forall k, k < n -> f k = g k) -> big_sum f n = big_sum g n.
Proof.
  induction n as [|n IH]; intros H; simpl; [done|].
  rewrite IH, H by (intros; try apply H; lia). done.
Qed.

Lemma big_sum_zero (n : nat) : big_sum (fun _ => 0%Z) n = 0%Z.
Proof. induction n as [|n IH]; simpl; [done | lia]. Qed.

Lemma big_sum_add (f g : nat -> Z) (n : nat) :
  big_sum (fun k => f k + g k)%Z n = (big_sum f n + big_sum g n)%Z.
Proof. induction n as [|n IH]; simpl; [done | lia]. Qed.

Lemma big_sum_scale_l (c : Z) (f : nat -> Z) (n : nat) :
  (c * big_sum f n)%Z = big_sum (fun k => c * f k)%Z n.
Proof. induction n as [|n IH]; simpl; [lia | rewrite <- IH; lia]. Qed.

Lemma big_sum_scale_r (c : Z) (f : nat -> Z) (n : nat) :
  (big_sum f n * c)%Z = big_sum (fun k => f k * c)%Z n.
Proof. induction n as [|n IH]; simpl; [lia | rewrite <- IH; lia]. Qed.

Lemma big_sum_swap (f : nat -> nat -> Z) (n p : nat) :
  big_sum (fun k => big_sum (fun l => f k l) n) p
  = big_sum (fun l => big_sum (fun k => f k l) p) n.
Proof.
  induction p as [|p IH]; simpl.
  - by rewrite big_sum_zero.
  - by rewrite big_sum_add, IH.
Qed.

(** A sum against one column of the identity picks one term. *)
Lemma big_sum_pick (f : nat -> Z) (n j : nat) :
  big_sum (fun k => f k * (if decide (k = j) then 1 else 0))%Z n
  = if decide (j < n) then f j else 0%Z.
Proof.
  induction n as [|n IH]; simpl; [done|]. rewrite IH.
  repeat destruct (decide _); subst; lia.
Qed.

Lemma entry_tabulate (f : nat -> nat -> Z) (m n i j : nat) :
  i < m -> j < n ->
  entry (map (fun i => map (fun j => f i j) (seq 0 n)) (seq 0 m)) i j = f i j.
Proof.
  intros Hi Hj. unfold entry.
  rewrite list_lookup_fmap, lookup_seq_lt by done. simpl.
  by rewrite list_lookup_fmap, lookup_seq_lt.
Qed.

Lemma row_tabulate {X} (d : X) (row : list X) :
  row = map (fun j => default d (row !! j)) (seq 0 (length row)).
Proof.
  apply list_eq. intros j. rewrite list_lookup_fmap.
  destruct (decide (j < length row)) as [Hj|Hj].
  - rewrite lookup_seq_lt by done. simpl.
    by destruct (lookup_lt_is_Some_2 row j Hj) as (x & ->).
  - rewrite lookup_seq_ge, lookup_ge_None_2 by lia. done.
Qed.

(** A matrix is the table of its entries. *)
Lemma matrix_tabulate (M : list (list Z)) (m n : nat) :
  has_shape M m n ->
  M = map (fun i => map (fun j => entry M i j) (seq 0 n)) (seq 0 m).
Proof.
  intros [Hm Hn]. apply list_eq. intros i. rewrite list_lookup_fmap.
  destruct (decide (i < m)) as [Hi|Hi].
  - rewrite lookup_seq_lt by done. simpl.
    destruct (lookup_lt_is_Some_2 M i) as (row & Hrow); [lia|].
    rewrite Hrow. f_equal.
    eapply Forall_lookup in Hn; [|exact Hrow]. simpl in Hn. subst n.
    rewrite (row_tabulate 0%Z row) at 1. apply map_ext. intros j.
    unfold entry. by rewrite Hrow.
  - rewrite lookup_seq_ge, lookup_ge_None_2 by lia. done.
Qed.

Lemma matprod_ext (A B A' B' : list (list Z)) (m n n' p : nat) :
  (forall i j, i < m -> j < p -> matprod_entry A B n i j = matprod_entry A' B' n' i j) ->
  matprod A B m n p = matprod A' B' m n' p.
Proof.
  intros H. unfold matprod. apply map_ext_in. intros i Hi%in_seq.
  apply map_ext_in. intros j Hj%in_seq. apply H; lia.
Qed.

Lemma identity_entry (n k j : nat) :
  k < n -> j < n -> entry (identity n) k j = if decide (k = j) then 1%Z else 0%Z.
Proof. intros. unfold identity. by rewrite entry_tabulate. Qed.

Lemma identity_well_formed (n : nat) : 0 < n -> well_formed (identity n) n n.
Proof.
  intros Hn. split; [split|lia]; unfold identity.
  - by rewrite length_map, length_seq.
  - apply Forall_map, Forall_forall. intros i _. simpl. by rewrite length_map, length_seq.
Qed.

Lemma matprod_identity_r (A : list (list Z)) (m n : nat) :
  has_shape A m n -> matprod A (identity n) m n n = A.
Proof.
  intros HA. rewrite (matrix_tabulate A m n HA) at 2. unfold matprod.
  apply map_ext_in. intros i Hi%in_seq. apply map_ext_in. intros j Hj%in_seq.
  unfold matprod_entry.
  rewrite (big_sum_ext _ (fun k => entry A i k * (if decide (k = j) then 1 else 0))%Z).
  - rewrite big_sum_pick. destruct (decide (j < n)); [done | lia].
  - intros k Hk. rewrite identity_entry by lia. done.
Qed.

Lemma matprod_identity_l (A : list (list Z)) (m n : nat) :
  has_shape A m n -> matprod (identity m) A m m n = A.
Proof.
  intros HA. rewrite (matrix_tabulate A m n HA) at 2. unfold matprod.
  apply map_ext_in. intros i Hi%in_seq. apply map_ext_in. intros j Hj%in_seq.
  unfold matprod_entry.
  rewrite (big_sum_ext _ (fun k => entry A k j * (if decide (k = i) then 1 else 0))%Z).
  - rewrite big_sum_pick. destruct (decide (i < m)); [done | lia].
  - intros k Hk. rewrite identity_entry by lia.
    repeat destruct (decide _); subst; try lia; congruence.
Qed.

(** X11. The identity matrix is neutral on both sides: for a well-formed
    integer matrix [A] with [m] rows and [n] columns, [A] times the identity
    of size [n], and the identity of size [m] times [A], both return [A]. *)
Theorem identity_neutral (A : list (list Z)) (m n : nat) :
  well_formed A m n ->
  multiply_matrices (int_matrix A) (int_matrix (identity n)) = Return (numbers_of A)
  ∧ multiply_matrices (int_matrix (identity m)) (int_matrix A) = Return (numbers_of A).
Proof.
  intros HA. pose proof HA as ((HA' & Hm) & Hm0 & Hn0). split.
  - rewrite (int_multiply_matrices A (identity n) m n n HA (identity_well_formed n Hn0)).
    by rewrite matprod_identity_r.
  - rewrite (int_multiply_matrices (identity m) A m m n (identity_well_formed m Hm0) HA).
    by rewrite matprod_identity_l.
Qed.

Lemma identity_neutral_witness :
  multiply_matrices (int_matrix [[1; 2; 3]; [4; 5; 6]]%Z) (int_matrix (identity 3))
  = Return (numbers_of [[1; 2; 3]; [4; 5; 6]]%Z)
  ∧ multiply_matrices (int_matrix (identity 2)) (int_matrix [[1; 2; 3]; [4; 5; 6]]%Z)
    = Return (numbers_of [[1; 2; 3]; [4; 5; 6]]%Z).
Proof.
  apply (identity_neutral [[1; 2; 3]; [4; 5; 6]]%Z 2 3).
  split; [split; [reflexivity | repeat constructor] | lia].
Defined.

Lemma matprod_entry_inner (A B : list (list Z)) (m n p i k : nat) :
  i < m -> k < p -> entry (matprod A B m n p) i k = matprod_entry A B n i k.
Proof. intros. unfold matprod. by rewrite entry_tabulate. Qed.

Lemma matprod_assoc (A B C : list (list Z)) (m n p q : nat) :
  matprod (matprod A B m n p) C m p q = matprod A (matprod B C n p q) m n q.
Proof.
  apply matprod_ext. intros i j Hi Hj. unfold matprod_entry.
  rewrite (big_sum_ext _ (fun k => big_sum (fun l => entry A i l * entry B l k * entry C k j)%Z n)).
  2: { intros k Hk. rewrite matprod_entry_inner by done.
       unfold matprod_entry. by rewrite big_sum_scale_r. }
  rewrite big_sum_swap. apply big_sum_ext. intros l Hl.
  rewrite matprod_entry_inner by done. unfold matprod_entry.
  rewrite big_sum_scale_l. apply big_sum_ext. intros k Hk. lia.
Qed.

Lemma matprod_well_formed (A B : list (list Z)) (m n p : nat) :
  0 < m -> 0 < p -> well_formed (matprod A B m n p) m p.
Proof. intros. split; [apply matprod_shape | done]. Qed.

(** X12. Integer products are associative through the function itself:
    for well-formed integer matrices [A], [B], [C] of matching dimensions,
    multiplying the returned product of [A] and [B] by [C] returns the same
    matrix as multiplying [A] by the returned product of [B] and [C]. *)
Theorem product_associative (A B C : list (list Z)) (m n p q : nat)
    (ab bc : list (list Number)) :
  well_formed A m n -> well_formed B n p -> well_formed C p q ->
  multiply_matrices (int_matrix A) (int_matrix B) = Return ab ->
  multiply_matrices (int_matrix B) (int_matrix C) = Return bc ->
  exists res,
    multiply_matrices (obj_of_matrix ab) (int_matrix C) = Return res
    ∧ multiply_matrices (int_matrix A) (obj_of_matrix bc) = Return res.
Proof.
  intros HA HB HC Hab Hbc.
  rewrite (int_multiply_matrices A B m n p HA HB) in Hab. injection Hab as <-.
  rewrite (int_multiply_matrices B C n p q HB HC) in Hbc. injection Hbc as <-.
  rewrite <- !int_matrix_numbers.
  assert (0 < m ∧ 0 < n ∧ 0 < q) as (Hm & Hn & Hq).
  { destruct HA as (_ & ? & ?), HC as (_ & _ & ?). done. }
  exists (numbers_of (matprod A (matprod B C n p q) m n q)). split.
  - rewrite (int_multiply_matrices _ C m p q); [by rewrite matprod_assoc| |done].
    apply matprod_well_formed; [done|]. by destruct HB as (_ & _ & ?).
  - apply int_multiply_matrices; [done|]. by apply matprod_well_formed.
Qed.

Lemma product_associative_witness :
  exists res,
    multiply_matrices (obj_of_matrix [[NInt 11]]) (int_matrix [[5; 6]]%Z) = Return res
    ∧ multiply_matrices (int_matrix [[1; 2]]%Z) (obj_of_matrix [[NInt 15; NInt 18]; [NInt 20; NInt 24]])
      = Return res.
Proof.
  apply (product_associative [[1; 2]]%Z [[3]; [4]]%Z [[5; 6]]%Z 1 2 1 2).
  - split; [split; [reflexivity | repeat constructor] | lia].
  - split; [split; [reflexivity | repeat constructor] | lia].
  - split; [split; [reflexivity | repeat constructor] | lia].
  - vm_compute. reflexivity.
  - vm_compute. reflexivity.
Defined.

(** ** The order of the additions *)

Lemma row_step_cell (a b : list (list Number)) (p i k j : nat) (a_i row row' : list Number)
    (x : Number) :
  a !! i = Some a_i -> length row = p ->
  row_step true a b p i row k = Return row' -> row !! j = Some x ->
  exists y, row' !! j = Some y ∧ cell_step a_i b j x k = Return y.
Proof.
  intros Ha_i Hlen H Hx. unfold row_step in H. unfold cell_step.
  rewrite (getitem_Some _ _ _ Ha_i) in H. cbn [bind] in H.
  apply bind_Return in H as (aik & -> & H). cbn [bind andb] in *.
  destruct (py_eq_zero aik).
  - injection H as <-. by exists x.
  - apply bind_Return in H as (b_k & -> & H). cbn [bind].
    rewrite <- Hlen, loop_j_all in H.
    destruct (imapM_lookup _ _ _ _ _ _ H Hx) as (y & Hy & Hcell).
    exists y. split; [done|]. exact Hcell.
Qed.

Lemma row_loop_cells (a b : list (list Number)) (p i j : nat) (a_i : list Number)
    (ks : list nat) (row row' : list Number) (x : Number) :
  a !! i = Some a_i -> length row = p ->
  foldM (row_step true a b p i) ks row = Return row' -> row !! j = Some x ->
  exists y, row' !! j = Some y ∧ foldM (cell_step a_i b j) ks x = Return y.
Proof.
  intros Ha_i. revert row x. induction ks as [|k ks IH]; intros row x Hlen H Hx; simpl in *.
  - injection H as <-. by exists x.
  - apply bind_Return in H as (row1 & Hstep & H).
    destruct (row_step_cell _ _ _ _ _ _ _ _ _ _ Ha_i Hlen Hstep Hx) as (y1 & Hy1 & ->).
    simpl. eapply IH; [|exact H|exact Hy1].
    by eapply row_step_length.
Qed.

(** X13. Every cell of a returned product is the sum the loops build for
    that cell alone: starting from the int 0, for [k] in increasing order,
    [left[i][k] * right[k][j]] is added, the turns where [left[i][k]]
    equals zero being left out.  This fixes the order of the float
    additions. *)
Theorem product_cell_order (a b res : list (list Number)) (m n p i j : nat)
    (a_i : list Number) :
  well_formed a m n -> well_formed b n p ->
  multiply_matrices (obj_of_matrix a) (obj_of_matrix b) = Return res ->
  a !! i = Some a_i -> j < p ->
  exists x, res !! i ≫= (.!! j) = Some x ∧ cell_sum a_i b n j = Return x.
Proof.
  intros Ha Hb H Ha_i Hj. unfold multiply_matrices in H.
  rewrite (validate_well_formed "left" a m n Ha), (validate_well_formed "right" b n p Hb) in H.
  simpl in H. rewrite (multiply_validated_rows a b m n p Ha Hb) in H.
  assert (i < m) as Hi.
  { destruct Ha as ((<- & _) & _). by eapply lookup_lt_Some. }
  assert (replicate m (replicate p (NInt 0)) !! i = Some (replicate p (NInt 0))) as Hz
    by by apply lookup_replicate_2.
  destruct (imapM_lookup _ _ _ _ _ _ H Hz) as (row & Hrow & Hloop). simpl in Hloop.
  unfold row_loop in Hloop.
  destruct (row_loop_cells a b p i j a_i (range n) (replicate p (NInt 0)) row (NInt 0))
    as (y & Hy & Hsum); try done.
  - by rewrite length_replicate.
  - by apply lookup_replicate_2.
  - exists y. rewrite Hrow. by split.
Qed.

Lemma product_cell_order_witness :
  exists x,
    [[NFloat (float_of_Z 5)]] !! 0 ≫= (.!! 0) = Some x
    ∧ cell_sum [NFloat (float_of_Z 1); NInt 0; NInt 2]
        [[NFloat (float_of_Z 1)]; [NFloat S754_nan]; [NInt 2]] 3 0 = Return x.
Proof.
  apply (product_cell_order [[NFloat (float_of_Z 1); NInt 0; NInt 2]]
           [[NFloat (float_of_Z 1)]; [NFloat S754_nan]; [NInt 2]]
           [[NFloat (float_of_Z 5)]] 1 3 1 0 0).
  - split; [split; [reflexivity | repeat constructor] | lia].
  - split; [split; [reflexivity | repeat constructor] | lia].
  - vm_compute. reflexivity.
  - reflexivity.
  - lia.
Defined.

(** * Further properties of the command line *)

Lemma format_g_printable (x : Number) :
  printable x = true -> exists text, format_g x = Return text.
Proof.
  destruct x as [z|f]; simpl; [|by eexists].
  destruct (float_of_int z); [by eexists | discriminate].
Qed.

Lemma format_g_not_printable (x : Number) :
  printable x = false -> format_g x = Raise OverflowError.
Proof.
  destruct x as [z|f]; simpl; [|discriminate].
  destruct (float_of_int z) as [|e] eqn:E; [discriminate|].
  by rewrite (float_of_int_Raise z e E).
Qed.

Lemma format_row_printable (row : list Number) :
  forallb printable row = true -> exists parts, mapM format_g row = Return parts.
Proof.
  induction row as [|x row IH]; simpl; [by eexists|].
  intros [Hx Hrow]%andb_true_iff.
  destruct (format_g_printable x Hx) as (text & ->).
  destruct (IH Hrow) as (parts & ->). by eexists.
Qed.

Lemma format_row_not_printable (row : list Number) :
  forallb printable row = false -> mapM format_g row = Raise OverflowError.
Proof.
  induction row as [|x row IH]; simpl; [discriminate|].
  destruct (printable x) eqn:Hx; simpl.
  - intros Hrow. destruct (format_g_printable x Hx) as (text & ->). simpl.
    by rewrite (IH Hrow).
  - intros _. by rewrite (format_g_not_printable x Hx).
Qed.

Lemma print_matrix_fst (matrix : list (list Number)) (out : string) :
  fst (_print_matrix matrix out)
  = if forallb (forallb printable) matrix then Return tt else Raise OverflowError.
Proof.
  revert out. induction matrix as [|row rest IH]; intros out; simpl; [done|].
  unfold io_bind, lift.
  destruct (forallb printable row) eqn:Hrow; simpl.
  - destruct (format_row_printable row Hrow) as (parts & ->). simpl. apply IH.
  - by rewrite (format_row_not_printable row Hrow).
Qed.

(** X14. Printing a matrix succeeds exactly when every int in it is within
    the range of float; otherwise it raises [OverflowError], and nothing
    else is ever raised.  A matrix of floats always prints. *)
Theorem print_matrix_outcome (matrix : list (list Number)) (out : string) :
  fst (_print_matrix matrix out)
  = if forallb (forallb printable) matrix then Return tt else Raise OverflowError.
Proof. apply print_matrix_fst. Qed.

Lemma format_g_render (x : Number) : printable x = true -> format_g x = Return (render x).
Proof.
  destruct x as [z|f]; simpl; [|done]. unfold render, float_of_int, float_of_Z.
  by destruct (binary_normalize prec emax z 0 false).
Qed.

Lemma format_row_render (row : list Number) :
  forallb printable row = true -> mapM format_g row = Return (map render row).
Proof.
  induction row as [|x row IH]; simpl; [done|].
  intros [Hx Hrow]%andb_true_iff. by rewrite (format_g_render x Hx), (IH Hrow).
Qed.

(** X15. What [_print_matrix] writes: after what was printed before, one
    line per row in order, the elements of the row in ["g"] format with one
    space between two of them; when a row holds an int beyond the range of
    float, the rows before it are written, that row and the rows after it
    are not, and the outcome is [OverflowError]. *)
Theorem print_matrix_text (matrix : list (list Number)) (out : string) :
  _print_matrix matrix out
  = (if forallb (forallb printable) matrix then Return tt else Raise OverflowError,
     out +:+ printed_text matrix).
Proof.
  revert out. induction matrix as [|row rest IH]; intros out; simpl.
  - unfold lift. by rewrite append_empty_r.
  - unfold io_bind, lift, print.
    destruct (forallb printable row) eqn:Hrow; simpl.
    + rewrite (format_row_render row Hrow), IH. unfold printed_line.
      by rewrite !append_assoc.
    + rewrite (format_row_not_printable row Hrow). by rewrite append_empty_r.
Qed.

Section CommandLine.

Variable json_loads : string -> decoded.

(** X16. [_load_matrix_from_json_arg] catches [json.JSONDecodeError] and
    the validator's errors, and only those.  Text that is not JSON gives
    [SystemExit] "Failed to parse <label> as JSON: <detail>"; a decoded
    value the validator rejects gives [SystemExit] with the validator's own
    message, so that no error of the validator escapes; a value it accepts
    is returned validated; and any other exception [json.loads] raises (the
    plain [ValueError] of the digit limit, [RecursionError]) passes through
    unchanged. *)
Theorem load_matrix_outcomes (arg name : string) :
  (forall exc, json_loads arg = JSONDecodeError exc ->
     _load_matrix_from_json_arg json_loads arg name
     = Raise (SystemExit ("Failed to parse " +:+ name +:+ " as JSON: " +:+ exc)))
  ∧ (forall e, json_loads arg = DecoderRaised e ->
       _load_matrix_from_json_arg json_loads arg name = Raise e)
  ∧ (forall value m, json_loads arg = Decoded value -> _validate_matrix value name = Return m ->
       _load_matrix_from_json_arg json_loads arg name = Return m)
  ∧ (forall value e, json_loads arg = Decoded value -> _validate_matrix value name = Raise e ->
       _load_matrix_from_json_arg json_loads arg name = Raise (SystemExit (message e))).
Proof.
  unfold _load_matrix_from_json_arg. repeat split.
  - by intros exc ->.
  - by intros e ->.
  - by intros value m -> ->.
  - intros value e -> He. rewrite He.
    apply validate_Raise, list_elem_of_In in He. simpl in He.
    destruct He as [<-|[<-|[<-|[<-|[<-|[]]]]]]; reflexivity.
Qed.

Lemma load_matrix_Return (arg name : string) (m : list (list Number)) :
  _load_matrix_from_json_arg json_loads arg name = Return m ->
  exists value, json_loads arg = Decoded value ∧ _validate_matrix value name = Return m.
Proof.
  unfold _load_matrix_from_json_arg.
  destruct (json_loads arg) as [value|exc|e]; [|done|done].
  destruct (_validate_matrix value name) as [m'|[]] eqn:E; try discriminate.
  intros [= ->]. by exists value.
Qed.

Lemma load_matrix_well_formed (arg name : string) (m : list (list Number)) :
  _load_matrix_from_json_arg json_loads arg name = Return m ->
  exists c, well_formed m (length m) c.
Proof.
  intros (value & _ & H)%load_matrix_Return. by eapply validate_Return_well_formed.
Qed.

(** X17. With any number of arguments other than none or two, [main]
    prints the three usage lines and returns 2; [json.loads] is never
    called. *)
Theorem main_usage_text (argv : list string) (out : string) :
  length argv ≠ 1 -> length argv ≠ 3 ->
  main json_loads argv out = (Return 2%Z, out +:+ usage_text).
Proof.
  intros H1 H3. unfold main.
  destruct (decide (length argv = 1)) as [|_]; [done|].
  destruct (decide (length argv = 3)) as [|_]; [done|].
  unfold io_bind, print, lift, usage_text. by rewrite !append_assoc.
Qed.

Lemma main_loaded (argv : list string) (out : string) (a b : list (list Number)) :
  length argv = 3 ->
  _load_matrix_from_json_arg json_loads (nth 1 argv "") "left" = Return a ->
  _load_matrix_from_json_arg json_loads (nth 2 argv "") "right" = Return b ->
  main json_loads argv out
  = (io! c <- lift (multiply_validated a b) ;;
     io! _u <- _print_matrix c ;;
     lift (Return 0%Z)) out.
Proof.
  intros Hlen Ha Hb. unfold main.
  destruct (decide (length argv = 1)) as [|_]; [lia|].
  destruct (decide (length argv = 3)) as [_|]; [|done].
  destruct (load_matrix_well_formed _ _ _ Ha) as (n & Hwa).
  destruct (load_matrix_well_formed _ _ _ Hb) as (p & Hwb).
  unfold io_bind at 1 2 3, lift at 1 2 3. rewrite Ha, Hb.
  unfold multiply_matrices.
  rewrite (validate_well_formed "left" a _ _ Hwa), (validate_well_formed "right" b _ _ Hwb).
  reflexivity.
Qed.

(** X18. With two arguments that both load, [main] multiplies the two
    validated matrices, prints the product and returns 0: the second
    validation inside [multiply_matrices] changes nothing. *)
Theorem main_two_arguments (argv : list string) (out : string) (a b : list (list Number)) :
  length argv = 3 ->
  _load_matrix_from_json_arg json_loads (nth 1 argv "") "left" = Return a ->
  _load_matrix_from_json_arg json_loads (nth 2 argv "") "right" = Return b ->
  main json_loads argv out
  = (io! c <- lift (multiply_validated a b) ;;
     io! _u <- _print_matrix c ;;
     lift (Return 0%Z)) out.
Proof. apply main_loaded. Qed.

(** X19. With two arguments, the left one is loaded first: when it fails
    to load, [main] ends with that [SystemExit] and prints nothing,
    whatever the right argument is; when only the right one fails, [main]
    ends with the right one's [SystemExit] and prints nothing. *)
Theorem main_load_failure (argv : list string) (out : string) (e : pyexc) :
  length argv = 3 ->
  (_load_matrix_from_json_arg json_loads (nth 1 argv "") "left" = Raise e ->
   main json_loads argv out = (Raise e, out))
  ∧ (forall a,
       _load_matrix_from_json_arg json_loads (nth 1 argv "") "left" = Return a ->
       _load_matrix_from_json_arg json_loads (nth 2 argv "") "right" = Raise e ->
       main json_loads argv out = (Raise e, out)).
Proof.
  intros Hlen. unfold main.
  destruct (decide (length argv = 1)) as [|_]; [lia|].
  destruct (decide (length argv = 3)) as [_|]; [|done].
  unfold io_bind, lift. split.
  - by intros ->.
  - by intros a -> ->.
Qed.

(** X20. With two arguments that load as matrices whose inner dimensions
    disagree, [main] does not exit with a message: the [ValueError] of
    [multiply_matrices] leaves [main] uncaught, and nothing is printed. *)
Theorem main_incompatible_shapes (argv : list string) (out : string)
    (a b : list (list Number)) (m n n' p : nat) :
  length argv = 3 ->
  _load_matrix_from_json_arg json_loads (nth 1 argv "") "left" = Return a ->
  _load_matrix_from_json_arg json_loads (nth 2 argv "") "right" = Return b ->
  has_shape a m n -> has_shape b n' p -> n ≠ n' ->
  main json_loads argv out = (Raise (ValueError (shape_message m n n' p)), out).
Proof.
  intros Hlen Ha Hb Hsa Hsb Hne.
  rewrite (main_loaded argv out a b Hlen Ha Hb).
  destruct (load_matrix_well_formed _ _ _ Ha) as (c & Hwa).
  destruct (load_matrix_well_formed _ _ _ Hb) as (c' & Hwb).
  destruct (well_formed_unique _ _ _ _ _ Hwa Hsa) as [<- <-].
  destruct (well_formed_unique _ _ _ _ _ Hwb Hsb) as [<- <-].
  unfold io_bind, lift.
  rewrite (multiply_validated_shapes _ _ _ _ _ _ Hwa Hwb).
  by destruct (decide (c ≠ length b)).
Qed.

Lemma io_bind_Return {A B} (c : io A) (k : A -> io B) (out out' : string) (y : B) :
  io_bind c k out = (Return y, out') ->
  exists x out1, c out = (Return x, out1) ∧ k x out1 = (Return y, out').
Proof.
  unfold io_bind. destruct (c out) as [[x|e] out1]; [|discriminate].
  intros H. by exists x, out1.
Qed.

Lemma io_bind_Raise {A B} (c : io A) (k : A -> io B) (out out' : string) (e : pyexc) :
  io_bind c k out = (Raise e, out') ->
  c out = (Raise e, out')
  ∨ exists x out1, c out = (Return x, out1) ∧ k x out1 = (Raise e, out').
Proof.
  unfold io_bind. destruct (c out) as [[x|e'] out1]; [|intros [= -> ->]; by left].
  intros H. right. by exists x, out1.
Qed.

Lemma load_matrix_Raise (arg name : string) (e : pyexc) :
  _load_matrix_from_json_arg json_loads arg name = Raise e ->
  (exists msg, e = SystemExit msg) ∨ json_loads arg = DecoderRaised e.
Proof.
  unfold _load_matrix_from_json_arg.
  destruct (json_loads arg) as [value|exc|e'];
    [|intros [= <-]; left; by eexists|intros [= <-]; by right].
  destruct (_validate_matrix value name) as [m|e'] eqn:E; [done|].
  apply validate_Raise, list_elem_of_In in E. simpl in E.
  destruct E as [<-|[<-|[<-|[<-|[<-|[]]]]]]; intros [= <-]; left; by eexists.
Qed.

Lemma print_matrix_Raise (matrix : list (list Number)) (out out' : string) (e : pyexc) :
  _print_matrix matrix out = (Raise e, out') -> e = OverflowError.
Proof.
  intros H. pose proof (print_matrix_fst matrix out) as Hfst. rewrite H in Hfst.
  simpl in Hfst. destruct (forallb (forallb printable) matrix); congruence.
Qed.

(** X21. [main] returns 0 or 2 and nothing else: 2 exactly when the number
    of arguments is neither none nor two, 0 after the demonstration or after
    a printed product. *)
Theorem main_return_codes (argv : list string) (out out' : string) (code : Z) :
  main json_loads argv out = (Return code, out') ->
  (code = 2%Z ∧ length argv ≠ 1 ∧ length argv ≠ 3)
  ∨ (code = 0%Z ∧ (length argv = 1 ∨ length argv = 3)).
Proof.
  unfold main.
  destruct (decide (length argv = 1)) as [H1|H1];
    [|destruct (decide (length argv = 3)) as [H3|H3]].
  - intros (c & out1 & _ & H)%io_bind_Return.
    apply io_bind_Return in H as (u & out2 & _ & H).
    injection H as <- _. right. auto.
  - intros (a & out1 & _ & H)%io_bind_Return.
    apply io_bind_Return in H as (b & out2 & _ & H).
    apply io_bind_Return in H as (c & out3 & _ & H).
    apply io_bind_Return in H as (u & out4 & _ & H).
    injection H as <- _. right. auto.
  - intros (u & out1 & _ & H)%io_bind_Return.
    apply io_bind_Return in H as (v & out2 & _ & H).
    apply io_bind_Return in H as (w & out3 & _ & H).
    injection H as <- _. left. auto.
Qed.

(** X22. Every exception that ends [main] is one of four: [SystemExit]
    from loading an argument; an exception [json.loads] itself raised that
    is not a [JSONDecodeError], passed through unchanged; the [ValueError]
    of incompatible shapes; or [OverflowError] (an int too large for a
    float, in the product or in the printing).  The errors of the validator
    and [IndexError] never leave [main]. *)
Theorem main_failures (argv : list string) (out out' : string) (e : pyexc) :
  main json_loads argv out = (Raise e, out') ->
  (exists msg, e = SystemExit msg)
  ∨ (length argv = 3
     ∧ (json_loads (nth 1 argv "") = DecoderRaised e
        ∨ json_loads (nth 2 argv "") = DecoderRaised e))
  ∨ (exists r1 c1 r2 c2, c1 ≠ r2 ∧ e = ValueError (shape_message r1 c1 r2 c2))
  ∨ e = OverflowError.
Proof.
  unfold main.
  destruct (decide (length argv = 1)) as [H1|H1];
    [|destruct (decide (length argv = 3)) as [H3|H3]].
  - intros [H | (c & out1 & _ & H)]%io_bind_Raise.
    + unfold lift in H. rewrite multiply_demo in H. discriminate.
    + apply io_bind_Raise in H as [H | (u & out2 & _ & H)]; [|discriminate].
      do 3 right. by eapply print_matrix_Raise.
  - intros [H | (a & out1 & Ha & H)]%io_bind_Raise.
    { unfold lift in H. injection H as H _.
      apply load_matrix_Raise in H as [H | H]; [by left | right; left; auto]. }
    apply io_bind_Raise in H as [H | (b & out2 & Hb & H)].
    { unfold lift in H. injection H as H _.
      apply load_matrix_Raise in H as [H | H]; [by left | right; left; auto]. }
    unfold lift in Ha, Hb. injection Ha as Ha _. injection Hb as Hb _.
    destruct (load_matrix_well_formed _ _ _ Ha) as (n & Hwa).
    destruct (load_matrix_well_formed _ _ _ Hb) as (p & Hwb).
    apply io_bind_Raise in H as [H | (c & out3 & _ & H)].
    + do 2 right. unfold lift, multiply_matrices in H.
      rewrite (validate_well_formed "left" a _ _ Hwa),
        (validate_well_formed "right" b _ _ Hwb) in H.
      simpl in H. injection H as H _.
      destruct (decide (n = length b)) as [->|Hne].
      * right. exact (multiply_validated_Raise a b _ _ _ e Hwa Hwb H).
      * left. rewrite (multiply_validated_shapes _ _ _ _ _ _ Hwa Hwb) in H.
        destruct (decide (n ≠ length b)); [|done]. injection H as <-.
        by exists (length a), n, (length b), p.
    + apply io_bind_Raise in H as [H | (u & out4 & _ & H)]; [|discriminate].
      do 3 right. by eapply print_matrix_Raise.
  - intros [H | (u & out1 & _ & H)]%io_bind_Raise; [discriminate|].
    apply io_bind_Raise in H as [H | (v & out2 & _ & H)]; [discriminate|].
    apply io_bind_Raise in H as [H | (w & out3 & _ & H)]; discriminate.
Qed.

End CommandLine.

Lemma load_matrix_outcomes_witness :
  _load_matrix_from_json_arg sample_loads "[1,2" "left"
  = Raise (SystemExit "Failed to parse left as JSON: Expecting value: line 1 column 1 (char 0)")
  ∧ _load_matrix_from_json_arg sample_loads "[[[[" "left" = Raise RecursionError
  ∧ _load_matrix_from_json_arg sample_loads "[[1,2]]" "left" = Return [[NInt 1; NInt 2]].
Proof.
  split; [|split].
  - apply (proj1 (load_matrix_outcomes sample_loads "[1,2" "left")). reflexivity.
  - apply (proj1 (proj2 (load_matrix_outcomes sample_loads "[[[[" "left"))). reflexivity.
  - apply (proj1 (proj2 (proj2 (load_matrix_outcomes sample_loads "[[1,2]]" "left")))
             (PList [PList [PInt 1; PInt 2]])); reflexivity.
Defined.

Lemma main_usage_text_witness :
  main sample_loads ["main.py"; "[[1,2]]"] "" = (Return 2%Z, "" +:+ usage_text).
Proof.
  apply (main_usage_text sample_loads ["main.py"; "[[1,2]]"] ""); simpl; lia.
Defined.

Lemma main_two_arguments_witness :
  main sample_loads ["main.py"; "[[1,2]]"; "[[3],[4]]"] ""
  = (io! c <- lift (multiply_validated [[NInt 1; NInt 2]] [[NInt 3]; [NInt 4]]) ;;
     io! _u <- _print_matrix c ;;
     lift (Return 0%Z)) "".
Proof.
  apply (main_two_arguments sample_loads ["main.py"; "[[1,2]]"; "[[3],[4]]"] "");
    reflexivity.
Defined.

Lemma main_load_failure_witness :
  main sample_loads ["main.py"; "[1,2"; "also bad"] ""
  = (Raise (SystemExit
              "Failed to parse left as JSON: Expecting value: line 1 column 1 (char 0)"), "").
Proof.
  apply (proj1 (main_load_failure sample_loads ["main.py"; "[1,2"; "also bad"] ""
                  (SystemExit
                     "Failed to parse left as JSON: Expecting value: line 1 column 1 (char 0)")
                  eq_refl)).
  reflexivity.
Defined.

Lemma main_incompatible_shapes_witness :
  main sample_loads ["main.py"; "[[1,2]]"; "[[1,2]]"] ""
  = (Raise (ValueError (shape_message 1 2 1 2)), "").
Proof.
  apply (main_incompatible_shapes sample_loads ["main.py"; "[[1,2]]"; "[[1,2]]"] ""
           [[NInt 1; NInt 2]] [[NInt 1; NInt 2]] 1 2 1 2); try reflexivity.
  - split; [reflexivity | repeat constructor].
  - split; [reflexivity | repeat constructor].
  - lia.
Defined.

Example main_two_arguments_output :
  main sample_loads ["main.py"; "[[1,2]]"; "[[3],[4]]"] "" = (Return 0%Z, "11" +:+ newline).
Proof. vm_compute. reflexivity. Qed.

Example print_matrix_partial :
  _print_matrix [[NInt 1; NFloat S754_nan]; [NInt (2 ^ 1024)]; [NInt 3]] ""
  = (Raise OverflowError, "1 nan" +:+ newline).
Proof. vm_compute. reflexivity. Qed.

Lemma main_return_codes_witness :
  (0%Z = 2%Z ∧ length ["main.py"; "[[1,2]]"; "[[3],[4]]"] ≠ 1
     ∧ length ["main.py"; "[[1,2]]"; "[[3],[4]]"] ≠ 3)
  ∨ (0%Z = 0%Z ∧ (length ["main.py"; "[[1,2]]"; "[[3],[4]]"] = 1
                  ∨ length ["main.py"; "[[1,2]]"; "[[3],[4]]"] = 3)).
Proof.
  apply (main_return_codes sample_loads ["main.py"; "[[1,2]]"; "[[3],[4]]"] ""
           ("11" +:+ newline) 0%Z).
  vm_compute. reflexivity.
Defined.

Lemma main_failures_witness :
  (exists msg, RecursionError = SystemExit msg)
  ∨ (length ["main.py"; "[[1,2]]"; "[[[["] = 3
     ∧ (sample_loads (nth 1 ["main.py"; "[[1,2]]"; "[[[["] "") = DecoderRaised RecursionError
        ∨ sample_loads (nth 2 ["main.py"; "[[1,2]]"; "[[[["] "")
          = DecoderRaised RecursionError))
  ∨ (exists r1 c1 r2 c2, c1 ≠ r2 ∧ RecursionError = ValueError (shape_message r1 c1 r2 c2))
  ∨ RecursionError = OverflowError.
Proof.
  apply (main_failures sample_loads ["main.py"; "[[1,2]]"; "[[[["] "" "" RecursionError).
  vm_compute. reflexivity.
Defined.

(** * The zero test with no zero to find *)

(** X23. The zero test matters only where the left matrix has a zero: when
    no element of the validated left matrix equals zero, [multiply_matrices]
    and the loop without the test give the same outcome on every pair of
    inputs, ints or floats, NaN and infinities included, failures
    included. *)
Theorem no_zero_no_difference (left right : pyobj) :
  (forall a, _validate_matrix left "left" = Return a ->
     Forall (Forall (fun x => py_eq_zero x = false)) a) ->
  multiply_matrices left right = naive_multiply left right.
Proof.
  intros Hzero. unfold multiply_matrices, naive_multiply.
  destruct (_validate_matrix left "left") as [a|]; [|done]. simpl.
  destruct (_validate_matrix right "right") as [b|]; [|done]. simpl.
  specialize (Hzero a eq_refl).
  unfold multiply_validated, naive_multiply_validated.
  destruct (getitem a 0); [|done]. simpl. destruct (getitem b 0); [|done]. simpl.
  destruct (decide _); [done|].
  apply foldM_ext_in. intros res i _. unfold loop_i, naive_loop_i.
  apply foldM_ext_in. intros res' k _. by apply loop_k_no_zero.
Qed.

Lemma no_zero_no_difference_witness :
  multiply_matrices (obj_of_matrix [[NInt 2; NFloat (S754_infinity false)]])
                    (obj_of_matrix [[NFloat S754_nan]; [NFloat (S754_zero false)]])
  = naive_multiply (obj_of_matrix [[NInt 2; NFloat (S754_infinity false)]])
                   (obj_of_matrix [[NFloat S754_nan]; [NFloat (S754_zero false)]]).
Proof.
  apply (no_zero_no_difference (obj_of_matrix [[NInt 2; NFloat (S754_infinity false)]])
           (obj_of_matrix [[NFloat S754_nan]; [NFloat (S754_zero false)]])).
  intros a [= <-]. repeat constructor.
Defined.
